(** * FNOL document intake: a shallow embedding of [app.py]

    The development follows the Python module top to bottom:

    - [Py]       the fragment of Python's object model the program relies on
                 (JSON values, exceptions, [dict.get], [in], subscripts,
                 truthiness, binary64 arithmetic);
    - [Pil]      images and the drawing commands issued on them;
    - [Runtime]  the collaborators reached through libraries (file system,
                 PDF rasteriser, archive extraction, image copying and
                 drawing, JSON codec, the hosted model, the request sent to
                 the webhook), gathered in one record so that every function
                 is a Rocq function of the program's inputs and of that
                 record;
    - the functions of [app.py], under their own names and in source order;
    - [Expected] what the specification says of them, in its own words;
    - [Sample]   a concrete runtime on which the examples are evaluated.

    Exceptions are values of [result]; every [try]/[except] of the source is a
    [match] on such a value, so a function whose body is wrapped in
    [try ... except Exception] has a plain (exception-free) Rocq type.
    Diagnostics written with [print] are not part of the modelled state. *)

From Stdlib Require Import ZArith List String Ascii Bool Lia Floats Permutation.
Import ListNotations.

Set Warnings "-register-all".

Local Open Scope string_scope.
Local Open Scope list_scope.
Local Open Scope Z_scope.

Declare Scope py_scope.
Delimit Scope py_scope with py.
Infix "+s+" := String.append (at level 60, right associativity) : py_scope.
Local Open Scope py_scope.

(* ================================================================== *)
(** ** Python values and exceptions *)
(* ================================================================== *)

Module Py.

(** What [json.loads] produces: [None], [bool], [int], [float], [str],
    [list] and [dict].  A [dict] keeps its keys in insertion order, so it is an
    association list; [json.loads] builds it with pairwise distinct keys. *)
Inductive json : Type :=
| JNull
| JBool (b : bool)
| JInt (z : Z)
| JFloat (f : float)
| JStr (s : string)
| JArr (l : list json)
| JObj (o : list (string * json)).

Definition dict := list (string * json).

Inductive exn_class :=
| AttributeError | TypeError | KeyError | IndexError
| ValueError | OverflowError | JSONDecodeError | RecursionError
| OtherException.

(** An exception instance; [exn_msg] is what [str(e)] prints. *)
Record exn := Exn { exn_cls : exn_class; exn_msg : string }.

Inductive result (A : Type) : Type :=
| Return (a : A)
| Raise (e : exn).
Arguments Return {A} a.
Arguments Raise {A} e.

Definition bind {A B} (m : result A) (k : A -> result B) : result B :=
  match m with
  | Return a => k a
  | Raise e => Raise e
  end.

Notation "'let*' x ':=' m 'in' k" := (bind m (fun x => k))
  (at level 10, x pattern, m at level 100, k at level 200) : py_scope.

Definition type_name (v : json) : string :=
  match v with
  | JNull => "NoneType"
  | JBool _ => "bool"
  | JInt _ => "int"
  | JFloat _ => "float"
  | JStr _ => "str"
  | JArr _ => "list"
  | JObj _ => "dict"
  end.

Definition is_dict (v : json) : bool :=
  match v with JObj _ => true | _ => false end.

(** [bool(v)]. *)
Definition truthy (v : json) : bool :=
  match v with
  | JNull => false
  | JBool b => b
  | JInt z => negb (z =? 0)
  | JFloat f => negb (PrimFloat.eqb f 0%float)
  | JStr s => negb (s =? "")%string
  | JArr l => match l with [] => false | _ => true end
  | JObj o => match o with [] => false | _ => true end
  end.

(** Dictionary lookup, by key. *)
Fixpoint lookup (k : string) (o : dict) : option json :=
  match o with
  | [] => None
  | (k', v) :: o' => if (k =? k')%string then Some v else lookup k o'
  end.

(** [k in d] for a dictionary [d]. *)
Definition has_key (k : string) (o : dict) : bool :=
  match lookup k o with Some _ => true | None => false end.

(** [d.get(k, default)] on a dictionary. *)
Definition dict_get (o : dict) (k : string) (default : json) : json :=
  match lookup k o with Some v => v | None => default end.

(** [v.get(k, default)] on an arbitrary value: only [dict] has the method. *)
Definition get (v : json) (k : string) (default : json) : result json :=
  match v with
  | JObj o => Return (dict_get o k default)
  | _ => Raise (Exn AttributeError
                  ("'" +s+ type_name v +s+ "' object has no attribute 'get'"))
  end.

Definition is_str (k : string) (v : json) : bool :=
  match v with JStr s => (s =? k)%string | _ => false end.

Definition substring_of (k s : string) : bool :=
  match String.index 0 k s with Some _ => true | None => false end.

(** [k in v] for a string [k]: key membership in a [dict], element membership
    in a [list], substring test on a [str], [TypeError] otherwise. *)
Definition contains (k : string) (v : json) : result bool :=
  match v with
  | JObj o => Return (has_key k o)
  | JArr l => Return (existsb (is_str k) l)
  | JStr s => Return (substring_of k s)
  | _ => Raise (Exn TypeError
                  ("argument of type '" +s+ type_name v +s+ "' is not iterable"))
  end.

(** [v[k]] for a string [k]. *)
Definition getitem (v : json) (k : string) : result json :=
  match v with
  | JObj o => match lookup k o with
              | Some x => Return x
              | None => Raise (Exn KeyError ("'" +s+ k +s+ "'"))
              end
  | JArr _ => Raise (Exn TypeError
                       "list indices must be integers or slices, not str")
  | JStr _ => Raise (Exn TypeError "string indices must be integers, not 'str'")
  | _ => Raise (Exn TypeError
                  ("'" +s+ type_name v +s+ "' object is not subscriptable"))
  end.

(** [for x in v]: the sequence of values the loop visits. *)
Definition iterate (v : json) : result (list json) :=
  match v with
  | JArr l => Return l
  | JObj o => Return (map (fun kv => JStr (fst kv)) o)
  | JStr s => Return (map (fun c => JStr (String c "")) (list_ascii_of_string s))
  | _ => Raise (Exn TypeError
                  ("'" +s+ type_name v +s+ "' object is not iterable"))
  end.

(** Using [v] as a key of a dictionary ([d.get(v, ...)]): lists and
    dictionaries are unhashable. *)
Definition hashable (v : json) : result unit :=
  match v with
  | JArr _ | JObj _ =>
      Raise (Exn TypeError ("unhashable type: '" +s+ type_name v +s+ "'"))
  | _ => Return tt
  end.

(** *** Lists indexed the Python way *)

(** [operator.index(v)]: the values usable as a list subscript. *)
Definition as_index (v : json) : result Z :=
  match v with
  | JInt z => Return z
  | JBool b => Return (if b then 1 else 0)
  | _ => Raise (Exn TypeError
                  ("list indices must be integers or slices, not "
                   +s+ type_name v))
  end.

(** [l[i]]: a negative subscript counts from the end. *)
Definition list_getitem {A} (l : list A) (i : Z) : result A :=
  let n := Z.of_nat (List.length l) in
  let j := if i <? 0 then i + n else i in
  if (0 <=? j) && (j <? n) then
    match nth_error l (Z.to_nat j) with
    | Some a => Return a
    | None => Raise (Exn IndexError "list index out of range")
    end
  else Raise (Exn IndexError "list index out of range").

(** *** binary64 arithmetic *)

(** [float(z)] for an [int]: round to nearest, ties to even;
    [OverflowError] beyond the binary64 range. *)
Definition float_of_int (z : Z) : result float :=
  match binary_normalize 53 1024 z 0 false with
  | S754_infinity _ =>
      Raise (Exn OverflowError "int too large to convert to float")
  | sf => Return (SF2Prim sf)
  end.

(** [int(f)]: truncation toward zero. *)
Definition int_of_float (f : float) : result Z :=
  match Prim2SF f with
  | S754_zero _ => Return 0
  | S754_finite s m e =>
      let a := if 0 <=? e then Z.shiftl (Zpos m) e
               else Z.shiftr (Zpos m) (- e) in
      Return (if s then - a else a)
  | S754_infinity _ =>
      Raise (Exn OverflowError "cannot convert float infinity to integer")
  | S754_nan =>
      Raise (Exn ValueError "cannot convert float NaN to integer")
  end.

(** The left operand of [v / 1000.0] and of [v < n], as a float. *)
Definition as_float (op : string) (rhs : string) (v : json) : result float :=
  match v with
  | JInt z => float_of_int z
  | JBool b => Return (if b then 1%float else 0%float)
  | JFloat f => Return f
  | _ => Raise (Exn TypeError
                  ("unsupported operand type(s) for " +s+ op +s+ ": '"
                   +s+ type_name v +s+ "' and '" +s+ rhs +s+ "'"))
  end.

(** [v < n] for an [int] [n]. *)
Definition lt_int (v : json) (n : Z) : result bool :=
  match v with
  | JInt z => Return (z <? n)
  | JBool b => Return ((if b then 1 else 0) <? n)
  | JFloat f =>
      match float_of_int n with
      | Return fn => Return (PrimFloat.ltb f fn)
      | Raise _ => Return (PrimFloat.ltb f infinity)
      end
  | _ => Raise (Exn TypeError
                  ("'<' not supported between instances of '"
                   +s+ type_name v +s+ "' and 'int'"))
  end.

End Py.
Import Py.

(* ================================================================== *)
(** ** Images *)
(* ================================================================== *)

Module Pil.

(** The commands [ImageDraw] receives. *)
Inductive DrawOp :=
| Rectangle (x1 y1 x2 y2 : Z) (outline : string) (width : Z)
| Text (x y : Z) (label fill : string).

(** A [PIL.Image]: where its pixels come from, its size, and what has been
    drawn over it since. *)
Record Image := mkImage {
  img_source : string;
  img_width : Z;
  img_height : Z;
  img_drawn : list DrawOp
}.

Definition size (image : Image) : Z * Z := (img_width image, img_height image).

Definition copy (image : Image) : Image := image.

Definition draw (image : Image) (op : DrawOp) : Image :=
  mkImage (img_source image) (img_width image) (img_height image)
          (img_drawn image ++ [op]).

End Pil.
Import Pil.

(* ================================================================== *)
(** ** Pixel coordinates of the damage box *)
(* ================================================================== *)

(** [int((v / 1000.0) * dimension)] *)
Definition scale_coordinate (v : json) (dimension : Z) : result Z :=
  let* fv := as_float "/" "float" v in
  let* fd := float_of_int dimension in
  int_of_float (PrimFloat.mul (PrimFloat.div fv 1000%float) fd).

(** Lines 556-563: unpack the box and convert it to pixel coordinates. *)
Definition pixel_coordinates (image : Image) (box_coords : list json)
  : result (Z * Z * Z * Z) :=
  let '(img_width, img_height) := size image in
  match box_coords with
  | [ymin; xmin; ymax; xmax] =>
      let* x1 := scale_coordinate xmin img_width in
      let* y1 := scale_coordinate ymin img_height in
      let* x2 := scale_coordinate xmax img_width in
      let* y2 := scale_coordinate ymax img_height in
      Return (x1, y1, x2, y2)
  | _ => Raise (Exn ValueError "wrong number of values to unpack")
  end.

(* ================================================================== *)
(** ** File names *)
(* ================================================================== *)

Module Paths.

(** [str.lower] on the ASCII letters (the only ones that occur in the
    supported suffixes). *)
Definition lower_ascii (c : ascii) : ascii :=
  let n := nat_of_ascii c in
  if (Nat.leb 65 n && Nat.leb n 90)%bool then ascii_of_nat (n + 32) else c.

Fixpoint lower (s : string) : string :=
  match s with
  | EmptyString => EmptyString
  | String c r => String (lower_ascii c) (lower r)
  end.

(** The components of a POSIX path, as [pathlib] parses it: empty and ["."]
    components are dropped. *)
Fixpoint components_from (cur : string) (s : string) : list string :=
  match s with
  | EmptyString => [cur]
  | String c r =>
      if (c =? "/")%char then cur :: components_from "" r
      else components_from (cur +s+ String c "") r
  end.

Definition components (path : string) : list string :=
  filter (fun c => negb ((c =? "") || (c =? "."))%string)
         (components_from "" path).

(** [Path(path).name] *)
Definition path_name (path : string) : string :=
  last (components path) "".

(** The tail of [s] that starts at its last dot ([s[s.rfind('.'):]]). *)
Fixpoint from_last_dot (s : string) : option string :=
  match s with
  | EmptyString => None
  | String c r =>
      match from_last_dot r with
      | Some t => Some t
      | None => if (c =? ".")%char then Some s else None
      end
  end.

(** [Path(path).suffix]: with [i = name.rfind('.')], the suffix is [name[i:]]
    when [0 < i < len(name) - 1] and empty otherwise. *)
Definition suffix (path : string) : string :=
  let name := path_name path in
  match from_last_dot name with
  | Some t =>
      if (Nat.ltb (String.length t) (String.length name)
          && Nat.ltb 1 (String.length t))%bool
      then t else ""
  | None => ""
  end.

Fixpoint ends_with_slash (s : string) : bool :=
  match s with
  | EmptyString => false
  | String c EmptyString => (c =? "/")%char
  | String _ r => ends_with_slash r
  end.

(** [os.path.join(root, file)] for a relative [file]. *)
Definition path_join (root file : string) : string :=
  if ((root =? "")%string || ends_with_slash root)%bool then root +s+ file
  else root +s+ "/" +s+ file.

End Paths.
Import Paths.

(* ================================================================== *)
(** ** Collaborators *)
(* ================================================================== *)

(** Everything the program obtains from a library or from the outside world.
    Each field is the outcome of one library call as a function of its
    arguments; a field of type [result _] is a call that may raise. *)
Record Runtime := mkRuntime {
  (** [Image.open(path)] *)
  image_open : string -> result Image;
  (** [pdfplumber.open(path)]: the pages of the document, in page order, each
      with the outcome of [page.to_image(resolution=300).original] *)
  pdf_pages : string -> result (list (result Image));
  (** [ZipFile(path).extractall(tmp)] followed by [os.walk(tmp)]: the visited
      directories in walk order, each with its file names *)
  zip_walk : string -> result (list (string * list string));
  (** [img.save(buffer, format='PNG')]: the encoded bytes *)
  save_png : Image -> result string;
  (** [image.copy()] and [ImageDraw.Draw(copy)]: loading the pixel data of
      the image may fail *)
  copy_image : Image -> result unit;
  (** [draw.rectangle(...)] and [draw.text(...)] on the given image: whether
      PIL carries the command out or raises (corners in the wrong order, a
      coordinate out of its range) *)
  draw_command : Image -> DrawOp -> result unit;
  (** [requests.post(WEBHOOK_URL, json=payload)]: the body of the request for
      a payload carrying the given results, or the exception raised while the
      payload is encoded, before anything is sent *)
  encode_payload : json -> result string;
  (** [gemini_client.models.generate_content]: the reply text for the given
      parts and system instruction *)
  generate_content : list string -> string -> result string;
  (** [json.loads] *)
  json_loads : string -> result json;
  (** [json.dumps(v, indent=2, ensure_ascii=False)] *)
  json_dumps : json -> string;
  (** [str(v)] for numbers, lists and dictionaries *)
  py_repr : json -> string;
  (** the two instruction templates (lines 26-371) *)
  MASTER_PROMPT : string;
  WINDSHIELD_CLAIM_PROMPT : string
}.

(** An uploaded file, as Gradio hands it over. *)
Record UploadedFile := mkFile { name : string }.

(** The value of a [gr.File] input: [None], one file, or a list whose entries
    may be [None]. *)
Inductive Upload :=
| NoFiles
| SingleFile (f : UploadedFile)
| FileList (l : list (option UploadedFile)).

(** [gr.Request]: only [username] is read. *)
Record Request := mkRequest { username : option string }.

(** Calls that leave the process. *)
Inductive Event :=
| ModelCall (parts : list string) (system_instruction : string)
| WebhookPost (flow_type : string) (user : option string) (results : json).

Definition is_model_call (ev : Event) : bool :=
  match ev with ModelCall _ _ => true | WebhookPost _ _ _ => false end.

(** How many times the hosted model was invoked in a run. *)
Definition model_calls (trace : list Event) : nat :=
  List.length (filter is_model_call trace).

(* ================================================================== *)
(** ** [DocumentProcessor] *)
(* ================================================================== *)

Section DocumentProcessor.

Variable rt : Runtime.

Definition supported_image_formats : list string :=
  [".png"; ".jpg"; ".jpeg"; ".bmp"; ".tiff"].

Definition supported_document_formats : list string := [".pdf"].

(** [x in l] for a list of strings. *)
Definition mem (x : string) (l : list string) : bool :=
  existsb (String.eqb x) l.

(** The [for page in pdf.pages] loop: stops at the first page that fails. *)
Fixpoint render_pages (pages : list (result Image)) (images : list Image)
  : result (list Image) :=
  match pages with
  | [] => Return images
  | page :: rest =>
      let* pil_image := page in
      render_pages rest (images ++ [pil_image])
  end.

Definition convert_pdf_to_images (pdf_path : string) : result (list Image) :=
  match (let* pages := pdf_pages rt pdf_path in render_pages pages []) with
  | Return images => Return images
  | Raise e =>
      Raise (Exn OtherException
               ("Failed to convert PDF to images: " +s+ exn_msg e))
  end.

(** The body shared by the two loading loops (lines 410-426 and 446-460):
    dispatch on the lower-cased suffix, append what could be loaded, and
    swallow the failure otherwise. *)
Definition load_path (images : list Image) (file_path : string) : list Image :=
  let file_ext := lower (suffix file_path) in
  if mem file_ext supported_image_formats then
    match image_open rt file_path with
    | Return img => images ++ [img]
    | Raise _ => images
    end
  else if mem file_ext supported_document_formats then
    match convert_pdf_to_images file_path with
    | Return pdf_images => images ++ pdf_images
    | Raise _ => images
    end
  else images.

Definition upload_truthy (files : Upload) : bool :=
  match files with
  | NoFiles => false
  | SingleFile _ => true
  | FileList l => match l with [] => false | _ => true end
  end.

Definition process_uploaded_files (files : Upload) : list Image :=
  if negb (upload_truthy files) then []
  else
    let files := match files with
                 | FileList l => l
                 | SingleFile f => [Some f]
                 | NoFiles => []
                 end in
    fold_left (fun images file =>
                 match file with
                 | None => images
                 | Some f => load_path images (name f)
                 end) files [].

Definition process_zip_file (zip_file : option UploadedFile) : list Image :=
  match zip_file with
  | None => []
  | Some z =>
      match zip_walk rt (name z) with
      | Return walk =>
          fold_left (fun images (entry : string * list string) =>
                       let (root, files) := entry in
                       fold_left (fun images file =>
                                    load_path images (path_join root file))
                                 files images)
                    walk []
      | Raise _ => []
      end
  end.

Fixpoint images_to_gemini_parts_from (images : list Image) (parts : list string)
  : result (list string) :=
  match images with
  | [] => Return parts
  | img :: rest =>
      let* img_bytes := save_png rt img in
      images_to_gemini_parts_from rest (parts ++ [img_bytes])
  end.

Definition images_to_gemini_parts (images : list Image) : result (list string) :=
  images_to_gemini_parts_from images [].

(** Returns the reply (or the error text) together with the calls made. *)
Definition process_documents_with_gemini (images : list Image) (flow_type : string)
  : string * list Event :=
  match images with
  | [] => ("No images to process", [])
  | _ =>
      match images_to_gemini_parts images with
      | Raise e => ("Error processing with Gemini: " +s+ exn_msg e, [])
      | Return parts =>
          let prompt := if (flow_type =? "windshield")%string
                        then WINDSHIELD_CLAIM_PROMPT rt else MASTER_PROMPT rt in
          match generate_content rt parts prompt with
          | Return text => (text, [ModelCall parts prompt])
          | Raise e => ("Error processing with Gemini: " +s+ exn_msg e,
                        [ModelCall parts prompt])
          end
      end
  end.

(** [send_webhook_log]: one POST, whose outcome is discarded; a payload that
    cannot be encoded raises inside the [try] and nothing is sent. *)
Definition send_webhook_log (flow_type : string) (user : option string)
  (result_data : json) : list Event :=
  match encode_payload rt result_data with
  | Return _ => [WebhookPost flow_type user result_data]
  | Raise _ => []
  end.

(** [draw_bounding_box_on_image]: any exception raised while the coordinates
    are computed, the image is copied or the box and its label are drawn
    gives the original image back. *)
Definition draw_bounding_box_on_image (image : Image) (box_coords : list json)
  : Image :=
  match
    (let* (x1, y1, x2, y2) := pixel_coordinates image box_coords in
     let* _ := copy_image rt image in
     let img_with_box := copy image in
     let* _ := draw_command rt img_with_box (Rectangle x1 y1 x2 y2 "red" 3) in
     let img_with_box := draw img_with_box (Rectangle x1 y1 x2 y2 "red" 3) in
     let* _ := draw_command rt img_with_box
                            (Text x1 (y1 - 20) "Damage Area" "red") in
     let img_with_box :=
       draw img_with_box (Text x1 (y1 - 20) "Damage Area" "red") in
     Return img_with_box)
  with
  | Return img_with_box => img_with_box
  | Raise _ => image
  end.

(** Lines 844-854 and 891-901: loose files first, then the archive. *)
Definition gather_images (individual_files : Upload)
  (zip_file : option UploadedFile) : list Image :=
  let all_images := [] in
  let all_images :=
    if upload_truthy individual_files
    then all_images ++ process_uploaded_files individual_files
    else all_images in
  let all_images :=
    match zip_file with
    | Some _ => all_images ++ process_zip_file zip_file
    | None => all_images
    end in
  all_images.

Definition request_username (request : option Request) : option string :=
  match request with
  | Some r => username r
  | None => Some "unknown"
  end.

Definition process_files_accident (individual_files : Upload)
  (zip_file : option UploadedFile) (request : option Request)
  : (string * option (list Image) * Z) * list Event :=
  let all_images := gather_images individual_files zip_file in
  match all_images with
  | [] => (("No valid images found to process", None, 0), [])
  | _ =>
      let '(result, calls) :=
        process_documents_with_gemini all_images "accident" in
      let user := request_username request in
      let log :=
        match json_loads rt result with
        | Return parsed_result => send_webhook_log "accident" user parsed_result
        | Raise _ =>
            send_webhook_log "accident" user (JObj [("raw_result", JStr result)])
        end in
      ((result, Some all_images, Z.of_nat (List.length all_images)),
       calls ++ log)
  end.

End DocumentProcessor.

(* ================================================================== *)
(** ** Display panels *)
(* ================================================================== *)

(** Rendered markup.  Short literals (placeholders, error paragraphs) are kept
    verbatim; a templated panel is represented by the values interpolated
    into its template. *)
Inductive Html :=
| Markup (s : string)
| ChecklistPanel (summary : json) (items : list (string * bool))
| TilePanel (current_name : string) (current_index total : Z)
            (current_section : json)
| ValidationPanel (overall_status summary : json)
                  (checks : list (json * json * json)).

Fixpoint map_result {A B} (f : A -> result B) (l : list A) : result (list B) :=
  match l with
  | [] => Return []
  | a :: rest =>
      let* b := f a in
      let* bs := map_result f rest in
      Return (b :: bs)
  end.

Definition checklist_items : list (string * string) :=
  [("civilIdFront", "📋 Civil ID (Front)");
   ("civilIdBack", "📋 Civil ID (Back)");
   ("driversLicense", "🚗 Driver's License");
   ("vehicleRegistration", "📄 Vehicle Registration (Istamara)");
   ("repairOrder", "🔧 Repair Order");
   ("windshieldDamagePhoto", "📸 Windshield Damage Photo");
   ("chassisNumberPhoto", "🔢 Dashboard VIN/Chassis Photo");
   ("licensePlatePhoto", "🚙 License Plate Photo");
   ("windshieldLogoPhoto", "🏷️ Windshield Logo Photo")].

Definition create_windshield_checklist_display (checklist_data : json) : Html :=
  match
    (let* checklist := get checklist_data "checklist" (JObj []) in
     let* summary :=
       get checklist_data "summary" (JStr "Document checklist completed") in
     let* items :=
       map_result (fun kl : string * string =>
                     let (key, label) := kl in
                     let* status := get checklist key (JBool false) in
                     Return (label, truthy status))
                  checklist_items in
     Return (ChecklistPanel summary items))
  with
  | Return html => html
  | Raise e => Markup ("<p>Error creating checklist display: "
                       +s+ exn_msg e +s+ "</p>")
  end.

Definition section_mapping : list (string * string) :=
  [("civilId", "👤 Civil ID");
   ("driversLicense", "🚗 Driver's License");
   ("vehicleRegistration", "📄 Vehicle Registration");
   ("repairOrder", "🔧 Repair Order");
   ("photographicEvidence", "📸 Photographic Evidence")].

(** The loop of lines 654-657, on its two accumulators. *)
Fixpoint collect_sections (extracted_data : json) (mapping : list (string * string))
  (sections : list json) (section_names : list string)
  : result (list json * list string) :=
  match mapping with
  | [] => Return (sections, section_names)
  | (key, label) :: rest =>
      let* present := contains key extracted_data in
      if present then
        let* value := getitem extracted_data key in
        collect_sections extracted_data rest
                         (sections ++ [value]) (section_names ++ [label])
      else collect_sections extracted_data rest sections section_names
  end.

Definition len {A} (l : list A) : Z := Z.of_nat (List.length l).

Definition create_extraction_tiles (extracted_data : json) (current_index : Z)
  : Html * Z * Z :=
  match
    (let* (sections, section_names) :=
       collect_sections extracted_data section_mapping [] [] in
     match sections with
     | [] => Return (Markup "<p>No extraction data available</p>", 0, 0)
     | _ =>
         let current_index := Z.max 0 (Z.min current_index (len sections - 1)) in
         let* current_section := list_getitem sections current_index in
         let* current_name := list_getitem section_names current_index in
         Return (TilePanel current_name current_index (len sections)
                           current_section,
                 current_index, len sections)
     end)
  with
  | Return r => r
  | Raise e => (Markup ("<p>Error creating extraction tiles: "
                        +s+ exn_msg e +s+ "</p>"), 0, 0)
  end.

Definition create_validation_display (consistency_analysis : json) : Html :=
  match
    (let* overall_status :=
       get consistency_analysis "overallValidationStatus" (JStr "UNKNOWN") in
     let* summary :=
       get consistency_analysis "summary" (JStr "No summary available") in
     let* checks := get consistency_analysis "checks" (JArr []) in
     let* _ := hashable overall_status in
     let* visited := iterate checks in
     let* rendered :=
       map_result (fun check =>
                     let* check_name := get check "checkName" (JStr "Unknown Check") in
                     let* check_status := get check "status" (JStr "UNKNOWN") in
                     let* check_details :=
                       get check "details" (JStr "No details available") in
                     let* _ := hashable check_status in
                     Return (check_name, check_status, check_details))
                  visited in
     Return (ValidationPanel overall_status summary rendered))
  with
  | Return html => html
  | Raise e => Markup ("<p>Error creating validation display: "
                       +s+ exn_msg e +s+ "</p>")
  end.

(* ================================================================== *)
(** ** Windshield workflow *)
(* ================================================================== *)

(** The ten outputs of [process_files_windshield], in order. *)
Record WindshieldOutput := mkWindshieldOutput {
  checklist_html : Html;
  extraction_html : Html;
  validation_html : Html;
  complete_json : string;
  image_gallery : option (list Image);
  damage_image : option Image;
  image_count : Z;
  raw_result : string;
  current_idx : Z;
  total_sections : Z
}.

(** [return error_msg, "", "", error_msg, None, None, 0, "", 0, 0] *)
Definition windshield_error (error_msg : string) : WindshieldOutput :=
  mkWindshieldOutput (Markup error_msg) (Markup "") (Markup "") error_msg
                     None None 0 "" 0 0.

(** Lines 917-920. *)
Definition extract_sections (parsed_result : json) : result (json * json * json) :=
  let* document_checklist := get parsed_result "documentChecklist" (JObj []) in
  let* extracted_data := get parsed_result "extractedData" (JObj []) in
  let* consistency_analysis := get parsed_result "consistencyAnalysis" (JObj []) in
  Return (document_checklist, extracted_data, consistency_analysis).

Section Workflows.

Variable rt : Runtime.

(** Lines 933-937, the body of the inner [try]. *)
Definition locate_damage (all_images : list Image) (damage_location : json)
  : result (option Image) :=
  let* image_index := getitem damage_location "imageIndex" in
  let* box_coords := getitem damage_location "box_2d" in
  match box_coords with
  | JArr box =>
      if len box =? 4 then
        let* below := lt_int image_index (len all_images) in
        if below then
          let* i := as_index image_index in
          let* image := list_getitem all_images i in
          Return (Some (draw_bounding_box_on_image rt image box))
        else Return None
      else Return None
  | _ => Return None
  end.

(** Lines 928-939. *)
Definition resolve_damage_image (all_images : list Image) (extracted_data : json)
  : result (option Image) :=
  let damage_image := None in
  let* photographic_evidence :=
    get extracted_data "photographicEvidence" (JObj []) in
  let* damage_location := get photographic_evidence "damageLocation" (JObj []) in
  let* guard :=
    if truthy damage_location then
      let* has_index := contains "imageIndex" damage_location in
      if has_index then contains "box_2d" damage_location else Return false
    else Return false in
  if guard then
    match locate_damage all_images damage_location with
    | Return found => Return found
    | Raise _ => Return damage_image
    end
  else Return damage_image.

Definition process_files_windshield (individual_files : Upload)
  (zip_file : option UploadedFile) (request : option Request)
  : WindshieldOutput * list Event :=
  let all_images := gather_images rt individual_files zip_file in
  match all_images with
  | [] => (windshield_error "No valid images found to process", [])
  | _ =>
      let '(result, calls) :=
        process_documents_with_gemini rt all_images "windshield" in
      match json_loads rt result with
      | Raise _ => (windshield_error ("Error parsing result: " +s+ result), calls)
      | Return parsed_result =>
          match
            (let* (document_checklist, extracted_data, consistency_analysis) :=
               extract_sections parsed_result in
             let checklist_html :=
               create_windshield_checklist_display document_checklist in
             let '(extraction_html, current_idx, total_sections) :=
               create_extraction_tiles extracted_data 0 in
             let validation_html :=
               create_validation_display consistency_analysis in
             let* damage_image :=
               resolve_damage_image all_images extracted_data in
             let log :=
               send_webhook_log rt "windshield" (request_username request)
                                parsed_result in
             Return (mkWindshieldOutput
                       checklist_html extraction_html validation_html
                       (json_dumps rt parsed_result)
                       (Some all_images) damage_image (len all_images)
                       result current_idx total_sections,
                     log))
          with
          | Return (out, log) => (out, calls ++ log)
          | Raise e => (windshield_error ("Error: " +s+ exn_msg e), calls)
          end
      end
  end.

Definition known_sections : list string :=
  ["civilId"; "driversLicense"; "vehicleRegistration"; "repairOrder";
   "photographicEvidence"].

(** [len([k for k in [...] if k in extracted_data])] *)
Fixpoint count_sections (extracted_data : json) (keys : list string) : result Z :=
  match keys with
  | [] => Return 0
  | k :: rest =>
      let* present := contains k extracted_data in
      let* n := count_sections extracted_data rest in
      Return (if present then 1 + n else n)
  end.

Definition navigate_extraction_tiles (extracted_data_json : string)
  (direction : string) (current_index : Z) : Html * Z * Z :=
  match
    (if (extracted_data_json =? "")%string
     then Return (Markup "<p>No data available</p>", 0, 0)
     else
       let* parsed_result := json_loads rt extracted_data_json in
       let* extracted_data := get parsed_result "extractedData" (JObj []) in
       let* section_count := count_sections extracted_data known_sections in
       let new_index :=
         if (direction =? "prev")%string then Z.max 0 (current_index - 1)
         else if (direction =? "next")%string
              then Z.min (section_count - 1) (current_index + 1)
              else current_index in
       Return (create_extraction_tiles extracted_data new_index))
  with
  | Return r => r
  | Raise e => (Markup ("<p>Error navigating: " +s+ exn_msg e +s+ "</p>"),
                current_index, 0)
  end.

End Workflows.

(* ================================================================== *)
(** ** Accident workflow: normalising the reply *)
(* ================================================================== *)

Definition identify_document_type (doc_data : dict) : string :=
  if has_key "report_header" doc_data && has_key "first_party" doc_data
  then "Police Report (Form 1)"
  else if has_key "violator_information" doc_data
          && has_key "violation_description" doc_data
  then "Acceptance of Reconciliation (Form 2)"
  else if has_key "involved_vehicles" doc_data
          && has_key "authorizing_officer" doc_data
  then "Traffic Accident Notification (Form 3)"
  else if has_key "issuing_company" doc_data && has_key "policy_summary" doc_data
  then "Insurance Policy (Form 4)"
  else if has_key "vehicle_and_driver" doc_data
          && has_key "damage_description" doc_data
  then "Hit and Run Report (Form 5)"
  else "Unknown Document Type".

(** One entry of the per-document list. *)
Record Document := mkDocument {
  doc_key : string;
  doc_type : string;
  doc_content : string;
  doc_summary : string
}.

Section Normalizer.

Variable rt : Runtime.

(** [str(v)], as an f-string interpolates it. *)
Definition str_of (v : json) : string :=
  match v with
  | JStr s => s
  | JNull => "None"
  | JBool true => "True"
  | JBool false => "False"
  | _ => py_repr rt v
  end.

(** [container.get(inner, 'N/A')], interpolated. *)
Definition field (container : json) (inner : string) : result string :=
  let* v := get container inner (JStr "N/A") in
  Return (str_of v).

(** [doc_data.get(outer, {}).get(inner, 'N/A')], interpolated. *)
Definition nested (doc_data : dict) (outer inner : string) : result string :=
  field (dict_get doc_data outer (JObj [])) inner.

(** One [summary += f"{label}{value}\n"] statement. *)
Definition line (label : string) (value : result string) : result string :=
  let* v := value in
  Return (label +s+ v +s+ "
").

(** Runs the [summary += ...] statements in order; the first one that raises
    ends the [try] block with the text accumulated so far. *)
Fixpoint run_lines (summary : string) (statements : list (result string))
  : string :=
  match statements with
  | [] => summary
  | Return text :: rest => run_lines (summary +s+ text) rest
  | Raise e :: _ => summary +s+ "Error creating summary: " +s+ exn_msg e
  end.

Definition party_lines (title : string) (party : json) : list (result string) :=
  [ Return title;
    line "- Name: " (let* d := get party "driver_details" (JObj []) in
                     field d "name");
    line "- Vehicle: " (let* d := get party "vehicle_details" (JObj []) in
                        field d "plate_number") ].

Definition create_document_summary (doc_data : dict) (doc_type : string)
  : string :=
  let summary := "**Document Type:** " +s+ doc_type +s+ "

" in
  if (doc_type =? "Police Report (Form 1)")%string then
    let first_party := dict_get doc_data "first_party" (JObj []) in
    let second_party := dict_get doc_data "second_party" (JObj []) in
    run_lines summary
      ([ line "**Police Station:** " (nested doc_data "report_details" "police_station");
         line "**Accident Date:** " (nested doc_data "report_details" "accident_date");
         line "**Location:** " (nested doc_data "report_details" "accident_location");
         line "**File Number:** "
              (let* v := nested doc_data "report_details" "moi_file_number" in
               Return (v +s+ "
")) ]
       ++ party_lines "**First Party:**
" first_party
       ++ [ line "- Damage: "
                 (let* d := get first_party "statement_and_damage" (JObj []) in
                  let* v := field d "damaged_parts" in
                  Return (v +s+ "
")) ]
       ++ party_lines "**Second Party:**
" second_party
       ++ [ line "- Damage: "
                 (let* d := get second_party "statement_and_damage" (JObj []) in
                  field d "damaged_parts") ])
  else if (doc_type =? "Insurance Policy (Form 4)")%string then
    run_lines summary
      [ line "**Company:** " (nested doc_data "issuing_company" "name");
        line "**Policy Number:** " (nested doc_data "policy_summary" "policy_number");
        line "**Policy Holder:** " (nested doc_data "policy_holder" "name");
        line "**Vehicle:** "
             (let* make := nested doc_data "vehicle_details" "make" in
              let* model := nested doc_data "vehicle_details" "model" in
              Return (make +s+ " " +s+ model));
        line "**Plate Number:** " (nested doc_data "vehicle_details" "plate_number");
        line "**Effective Period:** "
             (let* from := nested doc_data "policy_period" "effective_from" in
              let* to := nested doc_data "policy_period" "effective_to" in
              Return (from +s+ " to " +s+ to)) ]
  else if (doc_type =? "Traffic Accident Notification (Form 3)")%string then
    run_lines summary
      [ line "**Accident Date:** " (nested doc_data "report_details" "accident_date");
        line "**Location:** " (nested doc_data "report_details" "accident_location");
        line "**File Number:** " (nested doc_data "report_details" "moi_file_number");
        line "**Police Station:** " (nested doc_data "report_details" "police_station") ]
  else if (doc_type =? "Acceptance of Reconciliation (Form 2)")%string then
    run_lines summary
      [ line "**Violator:** " (nested doc_data "violator_information" "name");
        line "**Violation Date:** " (nested doc_data "case_details" "violation_date");
        line "**Location:** " (nested doc_data "case_details" "violation_location");
        line "**Record Number:** " (nested doc_data "case_details" "record_number") ]
  else if (doc_type =? "Hit and Run Report (Form 5)")%string then
    run_lines summary
      [ line "**Driver:** " (nested doc_data "vehicle_and_driver" "driver_name");
        line "**Vehicle:** " (nested doc_data "vehicle_and_driver" "vehicle_type");
        line "**Plate Number:** " (nested doc_data "vehicle_and_driver" "plate_number");
        line "**Report Date:** " (nested doc_data "report_details" "report_date") ]
  else summary.

(** The loop of lines 1067-1075, one iteration. *)
Definition add_document (documents : list Document) (item : string * json)
  : list Document :=
  let (key, value) := item in
  match value with
  | JObj fields =>
      let doc_type := identify_document_type fields in
      documents ++ [mkDocument key doc_type (json_dumps rt value)
                               (create_document_summary fields doc_type)]
  | _ => documents
  end.

Definition parse_and_format_json (json_result : string)
  : result (string * list Document * string) :=
  if ((json_result =? "")%string || prefix "Error" json_result)%bool
  then Return (json_result, [], "")
  else
    match json_loads rt json_result with
    | Raise e =>
        match exn_cls e with
        | JSONDecodeError => Return (json_result, [], "")
        | _ => Raise e
        end
    | Return parsed_json =>
        let formatted_complete := json_dumps rt parsed_json in
        match parsed_json with
        | JObj top =>
            let validation_summary :=
              match lookup "validation_summary" top with
              | Some v => json_dumps rt v
              | None => ""
              end in
            let parsed_json_docs :=
              if has_key "validation_summary" top
              then filter (fun kv : string * json =>
                             negb (fst kv =? "validation_summary")%string) top
              else top in
            let documents := fold_left add_document parsed_json_docs [] in
            Return (formatted_complete, documents, validation_summary)
        | _ => Return (formatted_complete, [], "")
        end
    end.

End Normalizer.

(* ================================================================== *)
(** ** What the specification expects of the intake *)
(* ================================================================== *)

Module Expected.

Inductive Kind := image | pdf | unsupported.

(** Classification by file extension. *)
Definition kind_of (path : string) : Kind :=
  let ext := lower (suffix path) in
  if mem ext supported_image_formats then image
  else if mem ext supported_document_formats then pdf
  else unsupported.

(** All pages of a document, provided every one of them renders. *)
Fixpoint all_pages (pages : list (result Image)) : option (list Image) :=
  match pages with
  | [] => Some []
  | Return img :: rest =>
      match all_pages rest with
      | Some imgs => Some (img :: imgs)
      | None => None
      end
  | Raise _ :: _ => None
  end.

(** The page images one item contributes: one for a readable image, the pages
    in page order for a readable PDF, none for anything else. *)
Definition pages_of (rt : Runtime) (path : string) : list Image :=
  match kind_of path with
  | image =>
      match image_open rt path with
      | Return img => [img]
      | Raise _ => []
      end
  | pdf =>
      match pdf_pages rt path with
      | Return pages =>
          match all_pages pages with
          | Some imgs => imgs
          | None => []
          end
      | Raise _ => []
      end
  | unsupported => []
  end.


(** The loose files of a submission, in submission order. *)
Definition loose_paths (files : Upload) : list string :=
  match files with
  | NoFiles => []
  | SingleFile f => [name f]
  | FileList l =>
      flat_map (fun file => match file with
                            | Some f => [name f]
                            | None => []
                            end) l
  end.

(** The files found in the archive, in walk order. *)
Definition archive_paths (rt : Runtime) (zip_file : option UploadedFile)
  : list string :=
  match zip_file with
  | None => []
  | Some z =>
      match zip_walk rt (name z) with
      | Return walk =>
          flat_map (fun entry : string * list string =>
                      map (path_join (fst entry)) (snd entry)) walk
      | Raise _ => []
      end
  end.

(** The image sequence of a submission. *)
Definition page_images (rt : Runtime) (files : Upload)
  (zip_file : option UploadedFile) : list Image :=
  flat_map (pages_of rt) (loose_paths files)
  ++ flat_map (pages_of rt) (archive_paths rt zip_file).

(** [pixel = normalized / 1000 * dimension], evaluated in binary64 and
    truncated to a whole pixel. *)
Definition pixel (normalized dimension : Z) : result Z :=
  let* n := float_of_int normalized in
  let* d := float_of_int dimension in
  int_of_float (PrimFloat.mul (PrimFloat.div n 1000%float) d).

(** The scaling agrees with the exact quotient [normalized * dimension / 1000]. *)
Definition exact_on (dimension normalized : Z) : bool :=
  match pixel normalized dimension with
  | Return p => p =? normalized * dimension / 1000
  | Raise _ => false
  end.

(** A signature: both characteristic keys are present. *)
Definition signature (first second : string) (doc : dict) : bool :=
  has_key first doc && has_key second doc.

(** How many of the five named sections a mapping holds. *)
Definition section_count (extracted_data : dict) : Z :=
  len (filter (fun k => has_key k extracted_data) known_sections).

(** The nearest index of [0 .. count - 1]. *)
Definition clamp (count index : Z) : Z :=
  if index <? 0 then 0
  else if count - 1 <? index then count - 1
  else index.

End Expected.

(* ================================================================== *)
(** ** A concrete runtime, for examples *)
(* ================================================================== *)

Module Sample.

Definition photo (path : string) : Image := mkImage path 2000 1000 [].

Definition corrupt (path : string) : bool := prefix "corrupt" (path_name path).

Definition io_error (what : string) : exn := Exn OtherException what.

(** Replies of the model: a windshield reply whose damage box points at a
    given image, one with the checklist only, one accident reply. *)
Definition damage_box : json :=
  JArr [JInt 100; JInt 200; JInt 300; JInt 400].

Definition extracted_fields_at (image_index : Z) : dict :=
  [("civilId", JObj [("name", JStr "A. Driver")]);
   ("photographicEvidence",
    JObj [("damageDescription", JStr "crack");
          ("damageLocation",
           JObj [("box_2d", damage_box); ("imageIndex", JInt image_index)])])].

Definition extracted_fields : dict := extracted_fields_at 0.

Definition damage_reply (image_index : Z) : json :=
  JObj [("documentChecklist", JObj [("checklist", JObj [("civilIdFront", JBool true)])]);
        ("extractedData", JObj (extracted_fields_at image_index));
        ("consistencyAnalysis", JObj [("overallValidationStatus", JStr "VALID")])].

Definition checklist_only_reply_fields : dict :=
  [("documentChecklist", JObj [("checklist", JObj [("repairOrder", JBool true)])])].

Definition checklist_only_reply : json := JObj checklist_only_reply_fields.

Definition accident_fields : dict :=
  [("document_1", JObj [("report_header", JObj []); ("first_party", JObj [])]);
   ("note", JStr "two pages");
   ("page_count", JInt 2);
   ("validation_summary", JObj [("status", JStr "ok")])].

Definition accident_reply : json := JObj accident_fields.

Definition loads (text : string) : result json :=
  if (text =? "damage@-1")%string then Return (damage_reply (-1))
  else if (text =? "damage@0")%string then Return (damage_reply 0)
  else if (text =? "damage@7")%string then Return (damage_reply 7)
  else if (text =? "checklist-only")%string then Return checklist_only_reply
  else if (text =? "no-sections")%string then Return (JObj [("extractedData", JObj [])])
  else if (text =? "accident")%string then Return accident_reply
  else Raise (Exn JSONDecodeError "Expecting value: line 1 column 1 (char 0)").

(** The model answers with the text named by the first image it is shown:
    [damage@0.png] is answered with [damage@0]. *)
Definition stem (file : string) : string :=
  substring 0 (String.length file - String.length (suffix file)) file.

Definition reply (parts : list string) (system_instruction : string)
  : result string :=
  match parts with
  | first :: _ => Return (stem first)
  | [] => Raise (io_error "empty request")
  end.

(** The drawing commands as a current Pillow treats them: a rectangle whose
    second corner lies before the first is refused. *)
Definition accepts (image : Image) (op : DrawOp) : result unit :=
  match op with
  | Rectangle x1 y1 x2 y2 _ _ =>
      if x2 <? x1
      then Raise (Exn ValueError "x1 must be greater than or equal to x0")
      else if y2 <? y1
           then Raise (Exn ValueError "y1 must be greater than or equal to y0")
           else Return tt
  | Text _ _ _ _ => Return tt
  end.

Definition runtime : Runtime :=
  {| image_open := fun path =>
       if corrupt path then Raise (io_error "cannot identify image file")
       else Return (photo path);
     pdf_pages := fun path =>
       if corrupt path then Raise (io_error "No /Root object")
       else Return [Return (photo (path +s+ "#1")); Return (photo (path +s+ "#2"))];
     zip_walk := fun path =>
       if corrupt path then Raise (io_error "File is not a zip file")
       else Return [("/tmp/x", ["c.png"; "notes.txt"]); ("/tmp/x/sub", ["d.pdf"])];
     save_png := fun img => Return (path_name (img_source img));
     copy_image := fun _ => Return tt;
     draw_command := accepts;
     encode_payload := fun v => Return ("<" +s+ type_name v +s+ ">");
     generate_content := reply;
     json_loads := loads;
     json_dumps := fun v => "<" +s+ type_name v +s+ ">";
     py_repr := fun v => "<" +s+ type_name v +s+ ">";
     MASTER_PROMPT := "accident instructions";
     WINDSHIELD_CLAIM_PROMPT := "windshield instructions" |}.

Definition upload (names : list string) : Upload :=
  FileList (map (fun n => Some (mkFile n)) names).

End Sample.

(* ================================================================== *)
(** ** Vocabulary for further properties *)
(* ================================================================== *)

Module Observed.

Definition is_webhook (ev : Event) : bool :=
  match ev with WebhookPost _ _ _ => true | ModelCall _ _ => false end.

(** How many times the logging endpoint was posted to in a run. *)
Definition webhook_posts (trace : list Event) : nat :=
  List.length (filter is_webhook trace).

(** The instruction template a workflow selects. *)
Definition prompt_for (rt : Runtime) (flow_type : string) : string :=
  if (flow_type =? "windshield")%string
  then WINDSHIELD_CLAIM_PROMPT rt else MASTER_PROMPT rt.

(** The values Python accepts as the left operand of [v / 1000.0]. *)
Definition numeric (v : json) : bool :=
  match v with
  | JInt _ | JFloat _ | JBool _ => true
  | _ => false
  end.

(** The sections of a mapping the tiles page through, in display order, each
    with its label. *)
Definition present_sections (o : dict) : list (string * string) :=
  filter (fun kl : string * string => has_key (fst kl) o) section_mapping.

(** The ten keys the classifier tests for. *)
Definition signature_keys : list string :=
  ["report_header"; "first_party";
   "violator_information"; "violation_description";
   "involved_vehicles"; "authorizing_officer";
   "issuing_company"; "policy_summary";
   "vehicle_and_driver"; "damage_description"].

(** The six answers of the classifier. *)
Definition document_types : list string :=
  ["Police Report (Form 1)";
   "Acceptance of Reconciliation (Form 2)";
   "Traffic Accident Notification (Form 3)";
   "Insurance Policy (Form 4)";
   "Hit and Run Report (Form 5)";
   "Unknown Document Type"].

(** The first line of every document summary. *)
Definition summary_header (doc_type : string) : string :=
  "**Document Type:** " +s+ doc_type +s+ "

".

(** One row of the validation panel, with the defaults of lines 813-815. *)
Definition check_row (check : dict) : json * json * json :=
  (dict_get check "checkName" (JStr "Unknown Check"),
   dict_get check "status" (JStr "UNKNOWN"),
   dict_get check "details" (JStr "No details available")).

(** A check the validation panel can render: an object whose status can be
    used as a dictionary key. *)
Definition renderable_check (check : json) : bool :=
  match check with
  | JObj fields =>
      match dict_get fields "status" (JStr "UNKNOWN") with
      | JArr _ | JObj _ => false
      | _ => true
      end
  | _ => false
  end.

Definition fields_of (check : json) : dict :=
  match check with JObj fields => fields | _ => [] end.

(** [c] occurs in [s]. *)
Fixpoint occurs (c : ascii) (s : string) : bool :=
  match s with
  | EmptyString => false
  | String c' r => (c =? c')%char || occurs c r
  end.

(** What the accident workflow hands to the webhook (lines 868-873): the
    parsed reply, or the raw text under ["raw_result"]. *)
Definition accident_payload (rt : Runtime) (reply : string) : json :=
  match json_loads rt reply with
  | Return parsed_result => parsed_result
  | Raise _ => JObj [("raw_result", JStr reply)]
  end.

(** The index a navigation request asks for (lines 980-985). *)
Definition requested_index (section_count : Z) (direction : string)
  (current_index : Z) : Z :=
  if (direction =? "prev")%string then Z.max 0 (current_index - 1)
  else if (direction =? "next")%string
       then Z.min (section_count - 1) (current_index + 1)
       else current_index.

End Observed.

(* ================================================================== *)
(** ** Further sample data *)
(* ================================================================== *)

Module Sample2.

(** A runtime in which images named [truncated...] open but cannot be
    encoded, and the model is unreachable. *)
Definition strict_runtime : Runtime :=
  {| image_open := image_open Sample.runtime;
     pdf_pages := fun path =>
       if prefix "partial" (path_name path)
       then Return [Return (Sample.photo (path +s+ "#1"));
                    Raise (Sample.io_error "page 2 cannot be rendered")]
       else pdf_pages Sample.runtime path;
     zip_walk := zip_walk Sample.runtime;
     save_png := fun img =>
       if prefix "truncated" (path_name (img_source img))
       then Raise (Sample.io_error "image file is truncated")
       else Return (path_name (img_source img));
     copy_image := copy_image Sample.runtime;
     draw_command := draw_command Sample.runtime;
     encode_payload := encode_payload Sample.runtime;
     generate_content := fun _ _ => Raise (Sample.io_error "503 UNAVAILABLE");
     json_loads := json_loads Sample.runtime;
     json_dumps := json_dumps Sample.runtime;
     py_repr := py_repr Sample.runtime;
     MASTER_PROMPT := "accident instructions";
     WINDSHIELD_CLAIM_PROMPT := "windshield instructions" |}.

(** A reply nested deeper than the interpreter recurses: [json.loads] gives
    up with [RecursionError] instead of rejecting the text. *)
Fixpoint brackets (n : nat) : string :=
  match n with
  | O => ""
  | S n' => String "[" (brackets n')
  end.

Definition deeply_nested : string := brackets 1200.

Fixpoint opening_brackets (text : string) : nat :=
  match text with
  | String c rest => if (c =? "[")%char then S (opening_brackets rest) else O
  | EmptyString => O
  end.

(** The body [requests] prepares: a float that is not finite has no JSON
    form and is refused. *)
Definition not_finite (v : json) : bool :=
  match v with
  | JFloat f => PrimFloat.eqb (PrimFloat.abs f) infinity
                || negb (PrimFloat.eqb f f)
  | _ => false
  end.

Definition body (results : json) : result string :=
  match results with
  | JObj fields =>
      if existsb (fun kv : string * json => not_finite (snd kv)) fields
      then Raise (Exn ValueError
                      "Out of range float values are not JSON compliant")
      else Return "{...}"
  | _ => Return "{...}"
  end.

(** The sample runtime, with more replies the parser recognises. *)
Definition loads (text : string) : result json :=
  if Nat.leb 1000 (opening_brackets text)
  then Raise (Exn RecursionError
                  "maximum recursion depth exceeded while decoding a JSON array from a unicode string")
  else if (text =? "overflow")%string
  then Return (JObj [("x", JFloat infinity)])
  else if (text =? "null-data")%string then Return (JObj [("extractedData", JNull)])
  else if (text =? "bad-checks")%string
       then Return (JObj [("consistencyAnalysis", JObj [("checks", JNull)])])
       else json_loads Sample.runtime text.

Definition runtime : Runtime :=
  {| image_open := image_open Sample.runtime;
     pdf_pages := pdf_pages Sample.runtime;
     zip_walk := zip_walk Sample.runtime;
     save_png := save_png Sample.runtime;
     copy_image := copy_image Sample.runtime;
     draw_command := draw_command Sample.runtime;
     encode_payload := body;
     generate_content := generate_content Sample.runtime;
     json_loads := loads;
     json_dumps := json_dumps Sample.runtime;
     py_repr := py_repr Sample.runtime;
     MASTER_PROMPT := MASTER_PROMPT Sample.runtime;
     WINDSHIELD_CLAIM_PROMPT := WINDSHIELD_CLAIM_PROMPT Sample.runtime |}.






End Sample2.


(* ================================================================== *)
(** * Properties *)
(* ================================================================== *)

(** ** Dictionaries *)

Lemma has_key_In (k : string) (o : dict) :
  has_key k o = true <-> In k (map fst o).
Proof.
  unfold has_key.
  induction o as [|[k' v] o IH]; simpl.
  - split; [discriminate | tauto].
  - destruct (String.eqb_spec k k') as [->|Hne].
    + split; auto.
    + rewrite IH. split; [tauto|]. intros [H|H]; [congruence | exact H].
Qed.

Lemma has_key_Permutation (k : string) (o o' : dict) :
  Permutation o o' -> has_key k o = has_key k o'.
Proof.
  intros Hp.
  apply eq_true_iff_eq. rewrite !has_key_In.
  split; apply Permutation_in; [|symmetry]; now apply Permutation_map.
Qed.


Lemma lookup_In_NoDup (k : string) (v : json) (o : dict) :
  NoDup (map fst o) -> In (k, v) o -> lookup k o = Some v.
Proof.
  induction o as [|[k' v'] o IH]; simpl; [tauto|].
  intros Hnd [Heq|Hin].
  - inversion Heq; subst. now rewrite String.eqb_refl.
  - inversion Hnd as [|? ? Hnotin Hnd']; subst.
    destruct (String.eqb_spec k k') as [->|Hne]; [|auto].
    exfalso. apply Hnotin. now apply (in_map fst) in Hin.
Qed.

(** ** The intake loops *)

Section Intake.

Variable rt : Runtime.

Lemma render_pages_all (pages : list (result Image)) :
  forall images imgs,
    Expected.all_pages pages = Some imgs ->
    render_pages pages images = Return (images ++ imgs).
Proof.
  induction pages as [|[img|e] rest IH]; simpl; intros images imgs H.
  - inversion H. now rewrite app_nil_r.
  - destruct (Expected.all_pages rest) as [imgs'|] eqn:E; [|discriminate].
    inversion H; subst. rewrite (IH _ imgs' eq_refl), <- app_assoc. reflexivity.
  - discriminate.
Qed.

Lemma render_pages_some_fails (pages : list (result Image)) :
  forall images,
    Expected.all_pages pages = None ->
    exists e, render_pages pages images = Raise e.
Proof.
  induction pages as [|[img|e] rest IH]; simpl; intros images H.
  - discriminate.
  - destruct (Expected.all_pages rest) eqn:E; [discriminate|]. now apply IH.
  - now exists e.
Qed.

Lemma load_path_pages (images : list Image) (file_path : string) :
  load_path rt images file_path = images ++ Expected.pages_of rt file_path.
Proof.
  unfold load_path, Expected.pages_of, Expected.kind_of, convert_pdf_to_images.
  destruct (mem (lower (suffix file_path)) supported_image_formats).
  - destruct (image_open rt file_path); [reflexivity | now rewrite app_nil_r].
  - destruct (mem (lower (suffix file_path)) supported_document_formats);
      [|now rewrite app_nil_r].
    destruct (pdf_pages rt file_path) as [pages|e]; simpl;
      [|now rewrite app_nil_r].
    destruct (Expected.all_pages pages) as [imgs|] eqn:E.
    + now rewrite (render_pages_all _ [] imgs E).
    + destruct (render_pages_some_fails _ [] E) as [e ->].
      now rewrite app_nil_r.
Qed.

Lemma load_loop (files : list (option UploadedFile)) :
  forall images,
    fold_left (fun images file =>
                 match file with
                 | None => images
                 | Some f => load_path rt images (name f)
                 end) files images
    = images ++ flat_map (Expected.pages_of rt)
                         (Expected.loose_paths (FileList files)).
Proof.
  induction files as [|[f|] rest IH]; simpl; intros images.
  - now rewrite app_nil_r.
  - rewrite IH, load_path_pages, <- app_assoc. reflexivity.
  - apply IH.
Qed.

Lemma process_uploaded_files_pages (files : Upload) :
  process_uploaded_files rt files
  = flat_map (Expected.pages_of rt) (Expected.loose_paths files).
Proof.
  unfold process_uploaded_files.
  destruct files as [|f|l]; simpl.
  - reflexivity.
  - now rewrite load_path_pages, app_nil_r.
  - destruct l as [|x l]; [reflexivity|].
    cbn [negb]. apply (load_loop (x :: l) []).
Qed.

Lemma walk_directory (root : string) (files : list string) :
  forall images,
    fold_left (fun images file => load_path rt images (path_join root file))
              files images
    = images ++ flat_map (Expected.pages_of rt) (map (path_join root) files).
Proof.
  induction files as [|f rest IH]; simpl; intros images.
  - now rewrite app_nil_r.
  - rewrite IH, load_path_pages, <- app_assoc. reflexivity.
Qed.

Lemma walk_loop (walk : list (string * list string)) :
  forall images,
    fold_left (fun images (entry : string * list string) =>
                 let (root, files) := entry in
                 fold_left (fun images file =>
                              load_path rt images (path_join root file))
                           files images)
              walk images
    = images ++ flat_map (Expected.pages_of rt)
                  (flat_map (fun entry : string * list string =>
                               map (path_join (fst entry)) (snd entry)) walk).
Proof.
  induction walk as [|[root files] rest IH]; simpl; intros images.
  - now rewrite app_nil_r.
  - rewrite IH, walk_directory, flat_map_app, <- app_assoc. reflexivity.
Qed.

Lemma process_zip_file_pages (zip_file : option UploadedFile) :
  process_zip_file rt zip_file
  = flat_map (Expected.pages_of rt) (Expected.archive_paths rt zip_file).
Proof.
  unfold process_zip_file, Expected.archive_paths.
  destruct zip_file as [z|]; [|reflexivity].
  destruct (zip_walk rt (name z)) as [walk|e]; [|reflexivity].
  apply (walk_loop walk []).
Qed.

Lemma gather_images_pages (files : Upload) (zip_file : option UploadedFile) :
  gather_images rt files zip_file = Expected.page_images rt files zip_file.
Proof.
  unfold gather_images, Expected.page_images.
  rewrite <- process_zip_file_pages, <- process_uploaded_files_pages.
  destruct (upload_truthy files) eqn:Ht.
  - destruct zip_file; simpl; [reflexivity | now rewrite app_nil_r].
  - assert (Hn : process_uploaded_files rt files = [])
      by (unfold process_uploaded_files; now rewrite Ht).
    rewrite Hn. destruct zip_file; reflexivity.
Qed.

End Intake.

(** ** C6: the image sequence of a submission *)


Lemma loose_paths_app (l1 l2 : list (option UploadedFile)) :
  Expected.loose_paths (FileList (l1 ++ l2))
  = Expected.loose_paths (FileList l1) ++ Expected.loose_paths (FileList l2).
Proof. simpl. apply flat_map_app. Qed.




(** ** C2: empty submissions *)

(** C2. When the normalised image sequence of a submission is empty, both
    workflows return their nothing-to-process result without invoking the
    model, and [process_documents_with_gemini] itself answers an empty
    sequence without a call. *)
Theorem empty_submission_short_circuits
  (rt : Runtime) (files : Upload) (zip_file : option UploadedFile)
  (request : option Request) :
  Expected.page_images rt files zip_file = [] ->
  process_files_accident rt files zip_file request
  = (("No valid images found to process", None, 0), [])
  /\ process_files_windshield rt files zip_file request
     = (windshield_error "No valid images found to process", [])
  /\ model_calls (snd (process_files_accident rt files zip_file request)) = 0%nat
  /\ model_calls (snd (process_files_windshield rt files zip_file request)) = 0%nat
  /\ (forall flow_type,
        process_documents_with_gemini rt [] flow_type
        = ("No images to process", [])).
Proof.
  intros Hempty. rewrite <- gather_images_pages in Hempty.
  unfold process_files_accident, process_files_windshield.
  rewrite Hempty. repeat split.
Qed.

Lemma empty_submission_short_circuits_witness :
  process_files_accident Sample.runtime
    (Sample.upload ["notes.txt"; "corrupt.png"]) (Some (mkFile "corrupt.zip")) None
  = (("No valid images found to process", None, 0), []).
Proof.
  apply (empty_submission_short_circuits Sample.runtime
           (Sample.upload ["notes.txt"; "corrupt.png"])
           (Some (mkFile "corrupt.zip")) None).
  reflexivity.
Defined.

(** ** C3: replies that are not JSON *)

(** A reply that [json.loads] rejects with [JSONDecodeError] is handed back
    unparsed: the accident normaliser returns the raw text with no documents
    and no validation summary, and the windshield workflow returns its error
    result, whose message ends with the raw text. *)
Lemma unparsed_reply_keeps_raw_text (rt : Runtime) (raw msg : string) :
  json_loads rt raw = Raise (Exn JSONDecodeError msg) ->
  parse_and_format_json rt raw = Return (raw, [], "")
  /\ (forall files zip_file request,
        gather_images rt files zip_file <> [] ->
        fst (process_documents_with_gemini
               rt (gather_images rt files zip_file) "windshield") = raw ->
        fst (process_files_windshield rt files zip_file request)
        = windshield_error ("Error parsing result: " +s+ raw)).
Proof.
  intros Hfail. split.
  - unfold parse_and_format_json.
    destruct ((raw =? "")%string || prefix "Error" raw)%bool; [reflexivity|].
    rewrite Hfail. reflexivity.
  - intros files zip_file request Hne Hreply.
    unfold process_files_windshield.
    destruct (gather_images rt files zip_file) as [|img imgs]; [congruence|].
    destruct (process_documents_with_gemini rt (img :: imgs) "windshield")
      as [result calls].
    simpl in Hreply. subst result. rewrite Hfail. reflexivity.
Qed.

Lemma unparsed_reply_keeps_raw_text_witness :
  parse_and_format_json Sample.runtime "I cannot read these images"
  = Return ("I cannot read these images", [], "")
  /\ fst (process_files_windshield Sample.runtime
            (Sample.upload ["I cannot read these images.png"]) None None)
     = windshield_error "Error parsing result: I cannot read these images".
Proof.
  destruct (unparsed_reply_keeps_raw_text Sample.runtime
              "I cannot read these images"
              "Expecting value: line 1 column 1 (char 0)" eq_refl)
    as [Hparse Hflow].
  split; [exact Hparse|].
  apply (Hflow (Sample.upload ["I cannot read these images.png"]) None None).
  - discriminate.
  - reflexivity.
Defined.

Lemma normalizer_lets_other_exceptions_escape
  (rt : Runtime) (raw : string) (e : exn) :
  raw <> "" ->
  prefix "Error" raw = false ->
  json_loads rt raw = Raise e ->
  exn_cls e <> JSONDecodeError ->
  parse_and_format_json rt raw = Raise e.
Proof.
  intros Hraw Hprefix Hfail Hclass.
  apply String.eqb_neq in Hraw.
  unfold parse_and_format_json. rewrite Hraw, Hprefix, Hfail. cbn [orb].
  destruct (exn_cls e); congruence.
Qed.

Lemma windshield_catches_every_parse_failure
  (rt : Runtime) (files : Upload) (zip_file : option UploadedFile)
  (request : option Request) (e : exn) :
  gather_images rt files zip_file <> [] ->
  json_loads rt (fst (process_documents_with_gemini
                        rt (gather_images rt files zip_file) "windshield"))
  = Raise e ->
  fst (process_files_windshield rt files zip_file request)
  = windshield_error
      ("Error parsing result: "
       +s+ fst (process_documents_with_gemini
                  rt (gather_images rt files zip_file) "windshield")).
Proof.
  intros Hne Hfail.
  unfold process_files_windshield.
  destruct (gather_images rt files zip_file) as [|img imgs]; [congruence|].
  destruct (process_documents_with_gemini rt (img :: imgs) "windshield")
    as [result calls].
  simpl in Hfail. rewrite Hfail. reflexivity.
Qed.

(** C3, where the code falls short of it. A reply of 1200 opening brackets
    is not JSON, but [json.loads] does not reject it with [JSONDecodeError]:
    it runs out of recursion depth and raises [RecursionError].
    [parse_and_format_json] catches [JSONDecodeError] only, so the exception
    escapes instead of the raw text being returned.  The windshield workflow,
    whose handler catches everything, answers the same reply with its error
    result, which carries the raw text. *)
Theorem deeply_nested_reply_escapes_the_normalizer :
  json_loads Sample2.runtime Sample2.deeply_nested
  = Raise (Exn RecursionError
               "maximum recursion depth exceeded while decoding a JSON array from a unicode string")
  /\ parse_and_format_json Sample2.runtime Sample2.deeply_nested
     = Raise (Exn RecursionError
                  "maximum recursion depth exceeded while decoding a JSON array from a unicode string")
  /\ fst (process_files_windshield
            Sample2.runtime
            (Sample.upload [Sample2.deeply_nested +s+ ".png"]) None None)
     = windshield_error ("Error parsing result: " +s+ Sample2.deeply_nested).
Proof.
  assert (Hloads :
    json_loads Sample2.runtime Sample2.deeply_nested
    = Raise (Exn RecursionError
                 "maximum recursion depth exceeded while decoding a JSON array from a unicode string"))
    by (vm_compute; reflexivity).
  split; [exact Hloads|]. split.
  - apply normalizer_lets_other_exceptions_escape.
    + discriminate.
    + reflexivity.
    + exact Hloads.
    + discriminate.
  - vm_compute. reflexivity.
Qed.

(** ** C4: the three sections of a windshield reply *)

Lemma create_extraction_tiles_empty (current_index : Z) :
  create_extraction_tiles (JObj []) current_index
  = (Markup "<p>No extraction data available</p>", 0, 0).
Proof. reflexivity. Qed.



(** ** C5: document-type classification *)

(** C5. The classifier looks only at which keys are present: the first of the
    five signatures (a pair of keys, tried in the order Form 1 to Form 5)
    whose two keys are both present decides the type, no match gives
    ["Unknown Document Type"], and reordering the keys of the object does not
    change the answer. *)
Theorem document_type_by_signature (doc : dict) :
  (Expected.signature "report_header" "first_party" doc = true ->
   identify_document_type doc = "Police Report (Form 1)")
  /\ (Expected.signature "report_header" "first_party" doc = false ->
      Expected.signature "violator_information" "violation_description" doc = true ->
      identify_document_type doc = "Acceptance of Reconciliation (Form 2)")
  /\ (Expected.signature "report_header" "first_party" doc = false ->
      Expected.signature "violator_information" "violation_description" doc = false ->
      Expected.signature "involved_vehicles" "authorizing_officer" doc = true ->
      identify_document_type doc = "Traffic Accident Notification (Form 3)")
  /\ (Expected.signature "report_header" "first_party" doc = false ->
      Expected.signature "violator_information" "violation_description" doc = false ->
      Expected.signature "involved_vehicles" "authorizing_officer" doc = false ->
      Expected.signature "issuing_company" "policy_summary" doc = true ->
      identify_document_type doc = "Insurance Policy (Form 4)")
  /\ (Expected.signature "report_header" "first_party" doc = false ->
      Expected.signature "violator_information" "violation_description" doc = false ->
      Expected.signature "involved_vehicles" "authorizing_officer" doc = false ->
      Expected.signature "issuing_company" "policy_summary" doc = false ->
      Expected.signature "vehicle_and_driver" "damage_description" doc = true ->
      identify_document_type doc = "Hit and Run Report (Form 5)")
  /\ (Expected.signature "report_header" "first_party" doc = false ->
      Expected.signature "violator_information" "violation_description" doc = false ->
      Expected.signature "involved_vehicles" "authorizing_officer" doc = false ->
      Expected.signature "issuing_company" "policy_summary" doc = false ->
      Expected.signature "vehicle_and_driver" "damage_description" doc = false ->
      identify_document_type doc = "Unknown Document Type")
  /\ (forall doc', Permutation doc doc' ->
                   identify_document_type doc' = identify_document_type doc).
Proof.
  unfold Expected.signature, identify_document_type.
  repeat split.
  - intros ->. reflexivity.
  - intros -> ->. reflexivity.
  - intros -> -> ->. reflexivity.
  - intros -> -> -> ->. reflexivity.
  - intros -> -> -> -> ->. reflexivity.
  - intros -> -> -> -> ->. reflexivity.
  - intros doc' Hp.
    rewrite !(has_key_Permutation _ doc doc' Hp). reflexivity.
Qed.

Lemma document_type_by_signature_witness :
  identify_document_type
    [("first_party", JObj []); ("report_details", JNull); ("report_header", JObj [])]
  = identify_document_type
      [("report_header", JObj []); ("report_details", JNull); ("first_party", JObj [])]
  /\ identify_document_type
       [("report_header", JObj []); ("report_details", JNull); ("first_party", JObj [])]
     = "Police Report (Form 1)".
Proof.
  split.
  - apply (proj2 (proj2 (proj2 (proj2 (proj2 (proj2
             (document_type_by_signature
                [("report_header", JObj []); ("report_details", JNull);
                 ("first_party", JObj [])]))))))).
    apply perm_trans with
      (l' := [("report_details", JNull); ("report_header", JObj []);
              ("first_party", JObj [])]).
    + apply perm_swap.
    + apply perm_trans with
        (l' := [("report_details", JNull); ("first_party", JObj []);
                ("report_header", JObj [])]).
      * apply perm_skip, perm_swap.
      * apply perm_swap.
  - apply (proj1 (document_type_by_signature
                    [("report_header", JObj []); ("report_details", JNull);
                     ("first_party", JObj [])])).
    reflexivity.
Defined.

(** ** C7: pixel coordinates of the damage box *)

Lemma scale_coordinate_int (normalized dimension : Z) :
  scale_coordinate (JInt normalized) dimension
  = Expected.pixel normalized dimension.
Proof. reflexivity. Qed.

Lemma exact_on_reference_width :
  forallb (Expected.exact_on 2000) (map Z.of_nat (seq 0 1001)) = true.
Proof. vm_compute. reflexivity. Qed.

Lemma exact_on_reference_height :
  forallb (Expected.exact_on 1000) (map Z.of_nat (seq 0 1001)) = true.
Proof. vm_compute. reflexivity. Qed.

Lemma exact_on_normalized_range (dimension normalized : Z) :
  forallb (Expected.exact_on dimension) (map Z.of_nat (seq 0 1001)) = true ->
  0 <= normalized <= 1000 ->
  Expected.pixel normalized dimension = Return (normalized * dimension / 1000).
Proof.
  intros Hall Hrange.
  rewrite forallb_forall in Hall.
  assert (Hin : In normalized (map Z.of_nat (seq 0 1001))).
  { apply in_map_iff. exists (Z.to_nat normalized). split; [lia|].
    apply in_seq. lia. }
  specialize (Hall _ Hin). unfold Expected.exact_on in Hall.
  destruct (Expected.pixel normalized dimension) as [r|e]; [|discriminate].
  apply Z.eqb_eq in Hall. now subst.
Qed.

(** C7. A box [[ymin, xmin, ymax, xmax]] is mapped axis by axis:
    [x1] and [x2] are [xmin] and [xmax] scaled by the image width, [y1] and
    [y2] are [ymin] and [ymax] scaled by the image height, each as
    [normalized / 1000 * dimension] (evaluated in binary64 and truncated by
    [int]).  That rectangle is the one handed to the drawing calls: when
    they go through, the image comes back with it and its label drawn, and
    when one of them raises, the image comes back as it was.  On an image
    2000 wide and 1000 high the box [[100, 200, 300, 400]] gives
    [(400, 100, 800, 300)], and every coordinate of the 0-1000 scale lands
    on the exact quotient. *)
Theorem damage_box_linear_scaling :
  (forall rt image ymin xmin ymax xmax x1 y1 x2 y2,
      Expected.pixel xmin (img_width image) = Return x1 ->
      Expected.pixel ymin (img_height image) = Return y1 ->
      Expected.pixel xmax (img_width image) = Return x2 ->
      Expected.pixel ymax (img_height image) = Return y2 ->
      pixel_coordinates image [JInt ymin; JInt xmin; JInt ymax; JInt xmax]
      = Return (x1, y1, x2, y2)
      /\ (copy_image rt image = Return tt ->
          draw_command rt image (Rectangle x1 y1 x2 y2 "red" 3) = Return tt ->
          draw_command rt (draw image (Rectangle x1 y1 x2 y2 "red" 3))
                       (Text x1 (y1 - 20) "Damage Area" "red") = Return tt ->
          draw_bounding_box_on_image
            rt image [JInt ymin; JInt xmin; JInt ymax; JInt xmax]
          = draw (draw image (Rectangle x1 y1 x2 y2 "red" 3))
                 (Text x1 (y1 - 20) "Damage Area" "red"))
      /\ (draw_bounding_box_on_image
            rt image [JInt ymin; JInt xmin; JInt ymax; JInt xmax]
          = draw (draw image (Rectangle x1 y1 x2 y2 "red" 3))
                 (Text x1 (y1 - 20) "Damage Area" "red")
          \/ draw_bounding_box_on_image
               rt image [JInt ymin; JInt xmin; JInt ymax; JInt xmax]
             = image))
  /\ (forall source drawn,
        pixel_coordinates (mkImage source 2000 1000 drawn)
                          [JInt 100; JInt 200; JInt 300; JInt 400]
        = Return (400, 100, 800, 300))
  /\ (forall normalized,
        0 <= normalized <= 1000 ->
        Expected.pixel normalized 2000 = Return (normalized * 2000 / 1000)
        /\ Expected.pixel normalized 1000 = Return (normalized * 1000 / 1000)).
Proof.
  split; [|split].
  - intros rt image ymin xmin ymax xmax x1 y1 x2 y2 Hx1 Hy1 Hx2 Hy2.
    assert (Hpix : pixel_coordinates
                     image [JInt ymin; JInt xmin; JInt ymax; JInt xmax]
                   = Return (x1, y1, x2, y2)).
    { unfold pixel_coordinates, size.
      rewrite !scale_coordinate_int, Hx1, Hy1, Hx2, Hy2. reflexivity. }
    split; [exact Hpix|]. split.
    + intros Hcopy Hrect Htext.
      unfold draw_bounding_box_on_image, copy.
      rewrite Hpix. cbn [bind]. rewrite Hcopy. cbn [bind].
      rewrite Hrect. cbn [bind]. rewrite Htext. reflexivity.
    + unfold draw_bounding_box_on_image, copy.
      rewrite Hpix. cbn [bind].
      destruct (copy_image rt image); cbn [bind]; [|now right].
      destruct (draw_command rt image _); cbn [bind]; [|now right].
      destruct (draw_command rt (draw image _) _); cbn [bind];
        [now left | now right].
  - intros source drawn. vm_compute. reflexivity.
  - intros normalized Hrange. split.
    + apply exact_on_normalized_range; [apply exact_on_reference_width | exact Hrange].
    + apply exact_on_normalized_range; [apply exact_on_reference_height | exact Hrange].
Qed.

Lemma damage_box_linear_scaling_witness :
  pixel_coordinates (Sample.photo "windshield.png")
                    [JInt 100; JInt 200; JInt 300; JInt 400]
  = Return (400, 100, 800, 300)
  /\ draw_bounding_box_on_image Sample.runtime (Sample.photo "windshield.png")
                                [JInt 100; JInt 200; JInt 300; JInt 400]
     = draw (draw (Sample.photo "windshield.png")
                  (Rectangle 400 100 800 300 "red" 3))
            (Text 400 (100 - 20) "Damage Area" "red").
Proof.
  destruct (proj1 damage_box_linear_scaling
                  Sample.runtime (Sample.photo "windshield.png")
                  100 200 300 400 400 100 800 300
                  eq_refl eq_refl eq_refl eq_refl)
    as (Hpix & Hdraw & _).
  split; [exact Hpix|].
  apply Hdraw; reflexivity.
Defined.

(** ** The extraction tiles *)

Lemma list_getitem_in_range {A} (l : list A) (i : Z) :
  0 <= i < len l -> exists a, list_getitem l i = Return a.
Proof.
  intros Hi. unfold list_getitem. fold (len l).
  destruct (Z.ltb_spec i 0) as [Hneg|_]; [lia|].
  destruct (Z.leb_spec 0 i) as [_|Hneg]; [|lia].
  destruct (Z.ltb_spec i (len l)) as [_|Hge]; [|lia].
  simpl.
  destruct (nth_error l (Z.to_nat i)) as [a|] eqn:E; [now exists a|].
  apply nth_error_None in E. unfold len in Hi. lia.
Qed.

Lemma collect_sections_object (o : dict) (mapping : list (string * string)) :
  forall sections section_names,
    exists values labels,
      collect_sections (JObj o) mapping sections section_names
      = Return (sections ++ values, section_names ++ labels)
      /\ len values = len (filter (fun k => has_key k o) (map fst mapping))
      /\ len labels = len values.
Proof.
  induction mapping as [|[key label] rest IH]; intros sections section_names.
  - exists [], []. simpl. now rewrite !app_nil_r.
  - simpl. unfold has_key at 1.
    destruct (lookup key o) as [value|] eqn:E.
    + destruct (IH (sections ++ [value]) (section_names ++ [label]))
        as (values & labels & Heq & Hv & Hl).
      exists (value :: values), (label :: labels).
      cbn [bind]. rewrite Heq, <- !app_assoc. simpl.
      unfold has_key at 1. rewrite E.
      unfold len in *. cbn [List.length]. split; [reflexivity|]. split; lia.
    + destruct (IH sections section_names) as (values & labels & Heq & Hv & Hl).
      exists values, labels. rewrite Heq.
      unfold has_key at 1. rewrite E. auto.
Qed.

Lemma count_sections_object (o : dict) (keys : list string) :
  count_sections (JObj o) keys
  = Return (len (filter (fun k => has_key k o) keys)).
Proof.
  induction keys as [|k rest IH]; [reflexivity|].
  cbn [count_sections contains bind filter]. rewrite IH. cbn [bind].
  destruct (has_key k o); [|reflexivity].
  unfold len. cbn [List.length]. f_equal. lia.
Qed.

Lemma clamp_max_min (count index : Z) :
  0 < count ->
  Z.max 0 (Z.min index (count - 1)) = Expected.clamp count index.
Proof.
  intros Hc. unfold Expected.clamp.
  destruct (Z.ltb_spec index 0); [lia|].
  destruct (Z.ltb_spec (count - 1) index); lia.
Qed.

Lemma clamp_in_range (count index : Z) :
  0 < count -> 0 <= Expected.clamp count index <= count - 1.
Proof.
  intros Hc. unfold Expected.clamp.
  destruct (Z.ltb_spec index 0); [lia|].
  destruct (Z.ltb_spec (count - 1) index); lia.
Qed.

Lemma filter_none {A} (f : A -> bool) (l : list A) :
  (forall x, In x l -> f x = false) -> filter f l = [].
Proof.
  induction l as [|a l IH]; [reflexivity|].
  intros H. simpl. rewrite (H a (or_introl eq_refl)).
  apply IH. intros x Hx. apply H. now right.
Qed.

Lemma create_extraction_tiles_no_sections (o : dict) (current_index : Z) :
  Expected.section_count o = 0 ->
  create_extraction_tiles (JObj o) current_index
  = (Markup "<p>No extraction data available</p>", 0, 0).
Proof.
  intros Hcount. unfold create_extraction_tiles.
  destruct (collect_sections_object o section_mapping [] [])
    as (values & labels & Heq & Hv & Hl).
  rewrite Heq. simpl.
  change (map fst section_mapping) with known_sections in Hv.
  fold (Expected.section_count o) in Hv. rewrite Hcount in Hv.
  destruct values; [reflexivity | unfold len in Hv; cbn [List.length] in Hv; lia].
Qed.

Lemma create_extraction_tiles_clamps (o : dict) (current_index : Z) :
  0 < Expected.section_count o ->
  exists html,
    create_extraction_tiles (JObj o) current_index
    = (html, Expected.clamp (Expected.section_count o) current_index,
       Expected.section_count o).
Proof.
  intros Hcount. unfold create_extraction_tiles.
  destruct (collect_sections_object o section_mapping [] [])
    as (values & labels & Heq & Hv & Hl).
  rewrite Heq. simpl app.
  change (map fst section_mapping) with known_sections in Hv.
  fold (Expected.section_count o) in Hv.
  cbn [bind].
  destruct values as [|v values'] eqn:Evalues;
    [unfold len in Hv; cbn [List.length] in Hv; lia|].
  rewrite <- Evalues in *. clear Evalues.
  rewrite Hv, (clamp_max_min _ _ Hcount).
  pose proof (clamp_in_range _ current_index Hcount) as Hrange.
  destruct (list_getitem_in_range values
              (Expected.clamp (Expected.section_count o) current_index))
    as [section Hsection]; [lia|].
  destruct (list_getitem_in_range labels
              (Expected.clamp (Expected.section_count o) current_index))
    as [label Hlabel]; [lia|].
  rewrite Hsection, Hlabel. simpl. eexists. reflexivity.
Qed.

(** ** C8: navigation between the tiles *)

(** C8, as the code has it. When at least one of the five sections is present,
    navigation yields an index inside [[0, sectionCount - 1]]: the requested
    index (one less for ["prev"], one more for ["next"]) is clamped to the
    nearest valid index, so ["prev"] at 0 stays at 0 and ["next"] at the last
    index stays there; the renderer clamps any index it is given in the same
    way. When no section is present the answer is index 0 with count 0. *)
Theorem navigation_clamps_when_sections_exist
  (rt : Runtime) (raw : string) (parsed : json) (o : dict) :
  raw <> "" ->
  json_loads rt raw = Return parsed ->
  get parsed "extractedData" (JObj []) = Return (JObj o) ->
  (0 < Expected.section_count o ->
   forall direction current_index,
     exists html final_index,
       navigate_extraction_tiles rt raw direction current_index
       = (html, final_index, Expected.section_count o)
       /\ 0 <= final_index <= Expected.section_count o - 1
       /\ (direction = "prev" ->
           final_index = Expected.clamp (Expected.section_count o)
                                        (current_index - 1))
       /\ (direction = "next" ->
           final_index = Expected.clamp (Expected.section_count o)
                                        (current_index + 1))
       /\ (direction <> "prev" -> direction <> "next" ->
           final_index = Expected.clamp (Expected.section_count o) current_index)
       /\ (direction = "prev" -> current_index = 0 -> final_index = 0)
       /\ (direction = "next" ->
           current_index = Expected.section_count o - 1 ->
           final_index = Expected.section_count o - 1)
       /\ exists html',
           create_extraction_tiles (JObj o) current_index
           = (html', Expected.clamp (Expected.section_count o) current_index,
              Expected.section_count o))
  /\ (Expected.section_count o = 0 ->
      forall direction current_index,
        navigate_extraction_tiles rt raw direction current_index
        = (Markup "<p>No extraction data available</p>", 0, 0)).
Proof.
  intros Hraw Hloads Hget.
  apply String.eqb_neq in Hraw.
  split.
  - intros Hcount direction current_index.
    set (n := Expected.section_count o) in *.
    unfold navigate_extraction_tiles.
    rewrite Hraw, Hloads. cbn [bind]. rewrite Hget. cbn [bind].
    rewrite count_sections_object. cbn [bind].
    fold (Expected.section_count o). fold n.
    match goal with
    | |- context [create_extraction_tiles (JObj o) ?i] => set (requested := i)
    end.
    destruct (create_extraction_tiles_clamps o requested Hcount)
      as [html Hhtml].
    fold n in Hhtml. rewrite Hhtml.
    exists html, (Expected.clamp n requested).
    pose proof (clamp_in_range n requested Hcount) as Hrange.
    split; [reflexivity|]. split; [exact Hrange|].
    assert (Hprev : direction = "prev" ->
                    Expected.clamp n requested
                    = Expected.clamp n (current_index - 1)).
    { intros ->. subst requested. simpl.
      unfold Expected.clamp.
      repeat match goal with
             | |- context [?a <? ?b] => destruct (Z.ltb_spec a b)
             end; lia. }
    assert (Hnext : direction = "next" ->
                    Expected.clamp n requested
                    = Expected.clamp n (current_index + 1)).
    { intros ->. subst requested. simpl.
      unfold Expected.clamp.
      repeat match goal with
             | |- context [?a <? ?b] => destruct (Z.ltb_spec a b)
             end; lia. }
    split; [exact Hprev|]. split; [exact Hnext|].
    split.
    { intros Hnp Hnn. subst requested.
      apply String.eqb_neq in Hnp, Hnn. now rewrite Hnp, Hnn. }
    split.
    { intros Hd ->. rewrite (Hprev Hd). unfold Expected.clamp.
      repeat match goal with
             | |- context [?a <? ?b] => destruct (Z.ltb_spec a b)
             end; lia. }
    split.
    { intros Hd ->. rewrite (Hnext Hd). unfold Expected.clamp.
      repeat match goal with
             | |- context [?a <? ?b] => destruct (Z.ltb_spec a b)
             end; lia. }
    apply (create_extraction_tiles_clamps o current_index Hcount).
  - intros Hcount direction current_index.
    unfold navigate_extraction_tiles.
    rewrite Hraw, Hloads. cbn [bind]. rewrite Hget. cbn [bind].
    rewrite count_sections_object. cbn [bind].
    now rewrite create_extraction_tiles_no_sections.
Qed.

Lemma navigation_clamps_when_sections_exist_witness :
  exists html final_index,
    navigate_extraction_tiles Sample.runtime "damage@0" "next" 1
    = (html, final_index, 2)
    /\ 0 <= final_index <= 2 - 1.
Proof.
  destruct (proj1 (navigation_clamps_when_sections_exist
                     Sample.runtime "damage@0" (Sample.damage_reply 0)
                     Sample.extracted_fields
                     ltac:(discriminate) eq_refl eq_refl)
                  ltac:(reflexivity) "next" 1)
    as (html & final_index & Hnav & Hrange & _).
  exists html, final_index. split; [exact Hnav | exact Hrange].
Defined.

(** The claim as written fails when no section is present: the index
    returned is 0 while the range [[0, sectionCount - 1]] is empty. *)
Lemma navigation_without_sections_counterexample :
  navigate_extraction_tiles Sample.runtime "no-sections" "next" 0
  = (Markup "<p>No extraction data available</p>", 0, 0)
  /\ ~ (0 <= 0 <= 0 - 1).
Proof. split; [reflexivity | lia]. Qed.

(** ** C10: the tiles never fail to render *)

(** C10. A mapping holding none of the five section keys is rendered as the
    no-data placeholder with index 0 and count 0, whatever index is asked
    for; navigation over empty stored data returns its own placeholder, and
    over stored data that does not parse (or whose handling raises) an error
    paragraph with the index unchanged and count 0. *)
Theorem tiles_total_without_data (rt : Runtime) :
  (forall o current_index,
      (forall key, In key known_sections -> has_key key o = false) ->
      create_extraction_tiles (JObj o) current_index
      = (Markup "<p>No extraction data available</p>", 0, 0))
  /\ (forall direction current_index,
        navigate_extraction_tiles rt "" direction current_index
        = (Markup "<p>No data available</p>", 0, 0))
  /\ (forall raw e direction current_index,
        raw <> "" ->
        json_loads rt raw = Raise e ->
        navigate_extraction_tiles rt raw direction current_index
        = (Markup ("<p>Error navigating: " +s+ exn_msg e +s+ "</p>"),
           current_index, 0)).
Proof.
  split; [|split].
  - intros o current_index Hnone.
    apply create_extraction_tiles_no_sections.
    unfold Expected.section_count.
    rewrite (filter_none (fun k => has_key k o) known_sections Hnone).
    reflexivity.
  - reflexivity.
  - intros raw e direction current_index Hraw Hfail.
    apply String.eqb_neq in Hraw.
    unfold navigate_extraction_tiles. rewrite Hraw, Hfail. reflexivity.
Qed.

Lemma tiles_total_without_data_witness :
  create_extraction_tiles (JObj [("notes", JStr "none of the five")]) 3
  = (Markup "<p>No extraction data available</p>", 0, 0)
  /\ navigate_extraction_tiles Sample.runtime "not json" "next" 4
     = (Markup "<p>Error navigating: Expecting value: line 1 column 1 (char 0)</p>",
        4, 0).
Proof.
  split.
  - apply (proj1 (tiles_total_without_data Sample.runtime)).
    intros key Hin. simpl in Hin.
    repeat (destruct Hin as [<-|Hin]; [reflexivity|]). contradiction.
  - apply (proj2 (proj2 (tiles_total_without_data Sample.runtime))
                 "not json" (Exn JSONDecodeError
                               "Expecting value: line 1 column 1 (char 0)")).
    + discriminate.
    + reflexivity.
Defined.

(** ** C9: which top-level keys become documents *)

Section Documents.

Variable rt : Runtime.

Lemma add_document_keys (items : list (string * json)) :
  forall documents,
    map doc_key (fold_left (add_document rt) items documents)
    = map doc_key documents
      ++ map fst (filter (fun kv : string * json => is_dict (snd kv)) items).
Proof.
  induction items as [|[key value] rest IH]; intros documents.
  - simpl. now rewrite app_nil_r.
  - cbn [fold_left]. rewrite IH.
    destruct value; cbn [add_document filter snd is_dict];
      try reflexivity.
    rewrite map_app, <- app_assoc. reflexivity.
Qed.

Lemma add_document_origin (items : list (string * json)) :
  forall documents d,
    In d (fold_left (add_document rt) items documents) ->
    In d documents
    \/ exists fields,
        In (doc_key d, JObj fields) items
        /\ doc_type d = identify_document_type fields
        /\ doc_content d = json_dumps rt (JObj fields)
        /\ doc_summary d = create_document_summary rt fields (doc_type d).
Proof.
  induction items as [|[key value] rest IH]; intros documents d Hin.
  - now left.
  - cbn [fold_left] in Hin. apply IH in Hin.
    destruct Hin as [Hin|(fields & Hin & Hrest)].
    + destruct value; cbn [add_document] in Hin; try (now left).
      apply in_app_or in Hin. destruct Hin as [Hin|[<-|[]]]; [now left|].
      right. exists o. simpl. auto.
    + right. exists fields. split; [now right | exact Hrest].
Qed.

Lemma documents_source_subset (top : dict) (key : string) (value : json) :
  In (key, value)
     (if has_key "validation_summary" top
      then filter (fun kv : string * json =>
                     negb (fst kv =? "validation_summary")%string) top
      else top) ->
  In (key, value) top.
Proof.
  destruct (has_key "validation_summary" top); [|auto].
  intros H. now apply filter_In in H.
Qed.

End Documents.

(** C9. In the accident normaliser, a top-level key whose value is not a JSON
    object never becomes a document: it is neither classified nor
    summarised.  The formatted complete output is nevertheless the
    serialisation of the whole parsed object, in which that key is still
    bound to its value.  Every document that is listed comes from an
    object-valued key of the reply. *)
Theorem non_object_values_are_not_documents
  (rt : Runtime) (raw : string) (top : dict) :
  raw <> "" ->
  prefix "Error" raw = false ->
  json_loads rt raw = Return (JObj top) ->
  NoDup (map fst top) ->
  exists documents validation_summary,
    parse_and_format_json rt raw
    = Return (json_dumps rt (JObj top), documents, validation_summary)
    /\ (forall key value,
          In (key, value) top -> is_dict value = false ->
          ~ In key (map doc_key documents) /\ lookup key top = Some value)
    /\ (forall d,
          In d documents ->
          exists fields,
            In (doc_key d, JObj fields) top
            /\ doc_type d = identify_document_type fields
            /\ doc_content d = json_dumps rt (JObj fields)
            /\ doc_summary d = create_document_summary rt fields (doc_type d)).
Proof.
  intros Hraw Hprefix Hloads Hnodup.
  apply String.eqb_neq in Hraw.
  unfold parse_and_format_json. rewrite Hraw, Hprefix, Hloads. cbn [orb].
  eexists; eexists. split; [reflexivity|]. split.
  - intros key value Hin Hnot.
    pose proof (lookup_In_NoDup key value top Hnodup Hin) as Hlookup.
    split; [|exact Hlookup].
    rewrite add_document_keys. cbn [map app]. intros Hkey.
    apply in_map_iff in Hkey. destruct Hkey as ([key' value'] & Hfst & Hfilter).
    simpl in Hfst. subst key'.
    apply filter_In in Hfilter. destruct Hfilter as [Hsrc Hdict].
    apply documents_source_subset in Hsrc.
    rewrite (lookup_In_NoDup key value' top Hnodup Hsrc) in Hlookup.
    inversion Hlookup; subst. simpl in Hdict. congruence.
  - intros d Hd.
    apply add_document_origin in Hd. destruct Hd as [[]|(fields & Hin & Hrest)].
    exists fields. split; [|exact Hrest].
    now apply documents_source_subset in Hin.
Qed.

Lemma non_object_values_are_not_documents_witness :
  exists documents validation_summary,
    parse_and_format_json Sample.runtime "accident"
    = Return (json_dumps Sample.runtime Sample.accident_reply,
              documents, validation_summary)
    /\ ~ In "page_count" (map doc_key documents).
Proof.
  assert (Hnodup : NoDup (map fst Sample.accident_fields)).
  { repeat constructor; simpl; intuition discriminate. }
  destruct (non_object_values_are_not_documents
              Sample.runtime "accident" Sample.accident_fields
              ltac:(discriminate) eq_refl eq_refl Hnodup)
    as (documents & validation_summary & Hparse & Hexcluded & _).
  exists documents, validation_summary. split; [exact Hparse|].
  apply (Hexcluded "page_count" (JInt 2)).
  - simpl. auto.
  - reflexivity.
Defined.

(** ** C1: resolving the damage location *)

Lemma damage_index_at_or_above_length
  (rt : Runtime) (all_images : list Image) (box : list json) (image_index : Z) :
  len all_images <= image_index ->
  resolve_damage_image
    rt all_images
    (JObj [("photographicEvidence",
            JObj [("damageLocation",
                   JObj [("imageIndex", JInt image_index);
                         ("box_2d", JArr box)])])])
  = Return None.
Proof.
  intros Hge.
  unfold resolve_damage_image, locate_damage. cbn.
  destruct (len box =? 4); [|reflexivity].
  destruct (Z.ltb_spec image_index (len all_images)); [lia | reflexivity].
Qed.

Lemma damage_index_in_range
  (rt : Runtime) (all_images : list Image) (box : list json) (image_index : Z) (image : Image) :
  len box = 4 ->
  0 <= image_index ->
  nth_error all_images (Z.to_nat image_index) = Some image ->
  resolve_damage_image
    rt all_images
    (JObj [("photographicEvidence",
            JObj [("damageLocation",
                   JObj [("imageIndex", JInt image_index);
                         ("box_2d", JArr box)])])])
  = Return (Some (draw_bounding_box_on_image rt image box)).
Proof.
  intros Hbox Hpos Hnth.
  assert (Hlt : image_index < len all_images).
  { assert (Hsome : nth_error all_images (Z.to_nat image_index) <> None)
      by congruence.
    apply nth_error_Some in Hsome. unfold len. lia. }
  unfold resolve_damage_image, locate_damage. cbn.
  rewrite Hbox. cbn.
  destruct (Z.ltb_spec image_index (len all_images)); [|lia].
  cbn. unfold list_getitem. fold (len all_images).
  destruct (Z.ltb_spec image_index 0); [lia|].
  destruct (Z.leb_spec 0 image_index); [|lia].
  destruct (Z.ltb_spec image_index (len all_images)); [|lia].
  cbn. rewrite Hnth. reflexivity.
Qed.

Lemma damage_index_negative_in_reach
  (rt : Runtime) (all_images : list Image) (box : list json) (image_index : Z) (image : Image) :
  len box = 4 ->
  - len all_images <= image_index < 0 ->
  nth_error all_images (Z.to_nat (image_index + len all_images)) = Some image ->
  resolve_damage_image
    rt all_images
    (JObj [("photographicEvidence",
            JObj [("damageLocation",
                   JObj [("imageIndex", JInt image_index);
                         ("box_2d", JArr box)])])])
  = Return (Some (draw_bounding_box_on_image rt image box)).
Proof.
  intros Hbox Hneg Hnth.
  unfold resolve_damage_image, locate_damage. cbn.
  rewrite Hbox. cbn.
  destruct (Z.ltb_spec image_index (len all_images)); [|lia].
  cbn. unfold list_getitem. fold (len all_images).
  destruct (Z.ltb_spec image_index 0); [|lia].
  destruct (Z.leb_spec 0 (image_index + len all_images)); [|lia].
  destruct (Z.ltb_spec (image_index + len all_images) (len all_images)); [|lia].
  cbn. rewrite Hnth. reflexivity.
Qed.

Lemma damage_index_below_reach
  (rt : Runtime) (all_images : list Image) (box : list json) (image_index : Z) :
  image_index < - len all_images ->
  resolve_damage_image
    rt all_images
    (JObj [("photographicEvidence",
            JObj [("damageLocation",
                   JObj [("imageIndex", JInt image_index);
                         ("box_2d", JArr box)])])])
  = Return None.
Proof.
  intros Hlow.
  assert (Hlen : 0 <= len all_images) by (unfold len; lia).
  unfold resolve_damage_image, locate_damage. cbn.
  destruct (len box =? 4); [|reflexivity].
  destruct (Z.ltb_spec image_index (len all_images)); [|lia].
  cbn. unfold list_getitem. fold (len all_images).
  destruct (Z.ltb_spec image_index 0); [|lia].
  destruct (Z.leb_spec 0 (image_index + len all_images)); [lia|].
  reflexivity.
Qed.

(** C1 at a negative index. With two submitted images, a reply whose damage
    location carries [imageIndex = -1] and a four-element box is resolved:
    the test [image_index < len(all_images)] passes and
    [all_images[-1]] is the last image, which comes back with the box drawn
    on it. *)
Theorem negative_image_index_draws_overlay :
  resolve_damage_image
    Sample.runtime
    [Sample.photo "damage@-1.png"; Sample.photo "b.png"]
    (JObj (Sample.extracted_fields_at (-1)))
  = Return (Some (draw (draw (Sample.photo "b.png")
                             (Rectangle 400 100 800 300 "red" 3))
                       (Text 400 80 "Damage Area" "red")))
  /\ damage_image
       (fst (process_files_windshield
               Sample.runtime
               (Sample.upload ["damage@-1.png"; "b.png"]) None None))
     = Some (draw (draw (Sample.photo "b.png")
                        (Rectangle 400 100 800 300 "red" 3))
                  (Text 400 80 "Damage Area" "red")).
Proof. split; vm_compute; reflexivity. Qed.

(* ================================================================== *)
(** * Further properties *)
(* ================================================================== *)

(** ** The request to the model *)

Section ModelRequest.

Variable rt : Runtime.

Lemma gemini_parts_encode_all (images : list Image) :
  forall parts encoded,
    Forall2 (fun img part => save_png rt img = Return part) images encoded ->
    images_to_gemini_parts_from rt images parts = Return (parts ++ encoded).
Proof.
  induction images as [|img rest IH]; intros parts encoded H.
  - inversion H. simpl. now rewrite app_nil_r.
  - inversion H as [|? part ? encoded' Hpart Hrest]; subst.
    simpl. rewrite Hpart. cbn [bind].
    rewrite (IH _ _ Hrest), <- app_assoc. reflexivity.
Qed.

Lemma gemini_parts_first_failure (images : list Image) :
  forall parts,
    (exists img e, In img images /\ save_png rt img = Raise e) ->
    exists img e, In img images /\ save_png rt img = Raise e
                  /\ images_to_gemini_parts_from rt images parts = Raise e.
Proof.
  induction images as [|img rest IH]; intros parts (bad & e & Hin & Hbad).
  - contradiction.
  - simpl. destruct (save_png rt img) as [part|e'] eqn:E.
    + destruct Hin as [->|Hin]; [congruence|].
      destruct (IH (parts ++ [part]) (ex_intro _ bad (ex_intro _ e (conj Hin Hbad))))
        as (img' & e'' & Hin' & Hbad' & Hraise).
      exists img', e''. cbn [bind]. auto.
    + exists img, e'. cbn [bind]. auto.
Qed.

Lemma gemini_at_most_one_call (images : list Image) (flow_type : string) :
  (model_calls (snd (process_documents_with_gemini rt images flow_type)) <= 1)%nat
  /\ Observed.webhook_posts
       (snd (process_documents_with_gemini rt images flow_type)) = 0%nat.
Proof.
  unfold process_documents_with_gemini, model_calls, Observed.webhook_posts.
  destruct images as [|img rest]; [simpl; split; [lia|reflexivity]|].
  destruct (images_to_gemini_parts rt (img :: rest)) as [parts|e];
    [|simpl; split; [lia|reflexivity]].
  destruct (generate_content rt parts _); simpl; split; (lia || reflexivity).
Qed.

End ModelRequest.

(** X1. A non-empty image sequence whose images all encode is sent to the
    model in exactly one call: the parts are the PNG encodings of the images
    in order, the instruction is the windshield template for flow type
    ["windshield"] and the accident template for any other flow type, and the
    answer is the reply text, or the text of the error when the call raises
    (no second attempt is made). *)
Theorem model_called_once_with_all_pages
  (rt : Runtime) (images : list Image) (flow_type : string)
  (encoded : list string) :
  images <> [] ->
  Forall2 (fun img part => save_png rt img = Return part) images encoded ->
  snd (process_documents_with_gemini rt images flow_type)
  = [ModelCall encoded (Observed.prompt_for rt flow_type)]
  /\ List.length encoded = List.length images
  /\ fst (process_documents_with_gemini rt images flow_type)
     = match generate_content rt encoded (Observed.prompt_for rt flow_type) with
       | Return text => text
       | Raise e => "Error processing with Gemini: " +s+ exn_msg e
       end.
Proof.
  intros Hne Henc.
  pose proof (gemini_parts_encode_all rt images [] encoded Henc) as Hparts.
  simpl in Hparts.
  unfold process_documents_with_gemini, images_to_gemini_parts.
  destruct images as [|img rest]; [congruence|].
  rewrite Hparts. fold (Observed.prompt_for rt flow_type).
  split; [|split].
  - destruct (generate_content rt encoded _); reflexivity.
  - symmetry. apply (Forall2_length Henc).
  - destruct (generate_content rt encoded _); reflexivity.
Qed.

Lemma model_called_once_with_all_pages_witness :
  snd (process_documents_with_gemini
         Sample.runtime
         [Sample.photo "/uploads/a.png"; Sample.photo "/uploads/b.png"]
         "windshield")
  = [ModelCall ["a.png"; "b.png"] "windshield instructions"].
Proof.
  apply (model_called_once_with_all_pages
           Sample.runtime
           [Sample.photo "/uploads/a.png"; Sample.photo "/uploads/b.png"]
           "windshield" ["a.png"; "b.png"]).
  - discriminate.
  - repeat constructor.
Defined.

(** X2. If one of the images cannot be encoded as PNG, the model is not
    called at all and the answer is the text
    ["Error processing with Gemini: "] followed by the message of that
    failure. *)
Theorem encoding_failure_prevents_model_call
  (rt : Runtime) (images : list Image) (flow_type : string) :
  (exists img e, In img images /\ save_png rt img = Raise e) ->
  exists img e,
    In img images /\ save_png rt img = Raise e
    /\ process_documents_with_gemini rt images flow_type
       = ("Error processing with Gemini: " +s+ exn_msg e, []).
Proof.
  intros Hbad.
  destruct (gemini_parts_first_failure rt images [] Hbad)
    as (img & e & Hin & Hfail & Hraise).
  exists img, e. split; [exact Hin|]. split; [exact Hfail|].
  unfold process_documents_with_gemini, images_to_gemini_parts.
  destruct images as [|first rest]; [contradiction|].
  rewrite Hraise. reflexivity.
Qed.

Lemma encoding_failure_prevents_model_call_witness :
  exists img e,
    In img [Sample.photo "a.png"; Sample.photo "truncated.png"]
    /\ save_png Sample2.strict_runtime img = Raise e
    /\ process_documents_with_gemini
         Sample2.strict_runtime
         [Sample.photo "a.png"; Sample.photo "truncated.png"] "accident"
       = ("Error processing with Gemini: " +s+ exn_msg e, []).
Proof.
  apply (encoding_failure_prevents_model_call
           Sample2.strict_runtime
           [Sample.photo "a.png"; Sample.photo "truncated.png"] "accident").
  exists (Sample.photo "truncated.png"), (Sample.io_error "image file is truncated").
  split; [right; left; reflexivity | reflexivity].
Defined.

(** ** The tiles, on arbitrary input *)

Lemma list_getitem_nth {A} (l : list A) (i : Z) (a : A) :
  0 <= i -> nth_error l (Z.to_nat i) = Some a -> list_getitem l i = Return a.
Proof.
  intros Hi Hnth.
  assert (Hlt : i < len l).
  { assert (Hsome : nth_error l (Z.to_nat i) <> None) by congruence.
    apply nth_error_Some in Hsome. unfold len. lia. }
  unfold list_getitem. fold (len l).
  destruct (Z.ltb_spec i 0); [lia|].
  destruct (Z.leb_spec 0 i); [|lia].
  destruct (Z.ltb_spec i (len l)); [|lia].
  cbn. now rewrite Hnth.
Qed.

Lemma collect_sections_non_object (v : json) (mapping : list (string * string)) :
  is_dict v = false ->
  forall sections section_names,
    (exists e, collect_sections v mapping sections section_names = Raise e)
    \/ collect_sections v mapping sections section_names
       = Return (sections, section_names).
Proof.
  intros Hv.
  induction mapping as [|[key label] rest IH]; intros sections section_names.
  - now right.
  - destruct v; try discriminate; cbn [collect_sections contains bind];
      try (left; eexists; reflexivity).
    + destruct (substring_of key s); [left; eexists; reflexivity | apply IH].
    + destruct (existsb (is_str key) l); [left; eexists; reflexivity | apply IH].
Qed.

Lemma create_extraction_tiles_non_object (v : json) (current_index : Z) :
  is_dict v = false ->
  exists html, create_extraction_tiles v current_index = (html, 0, 0).
Proof.
  intros Hv. unfold create_extraction_tiles.
  destruct (collect_sections_non_object v section_mapping Hv [] [])
    as [[e ->]| ->]; cbn; eexists; reflexivity.
Qed.

Lemma collect_sections_values (o : dict) (mapping : list (string * string)) :
  forall sections section_names,
    collect_sections (JObj o) mapping sections section_names
    = Return (sections
              ++ map (fun kl : string * string => dict_get o (fst kl) JNull)
                     (filter (fun kl : string * string => has_key (fst kl) o)
                             mapping),
              section_names
              ++ map snd (filter (fun kl : string * string => has_key (fst kl) o)
                                 mapping)).
Proof.
  induction mapping as [|[key label] rest IH]; intros sections section_names.
  - simpl. now rewrite !app_nil_r.
  - cbn [collect_sections contains bind filter fst].
    destruct (has_key key o) eqn:Hk.
    + unfold has_key in Hk.
      destruct (lookup key o) as [value|] eqn:E; [|discriminate].
      cbn [getitem]. rewrite E. cbn [bind].
      rewrite IH, <- !app_assoc. cbn [map fst snd app].
      replace (dict_get o key JNull) with value
        by (unfold dict_get; now rewrite E).
      reflexivity.
    + apply IH.
Qed.

Lemma filter_fst_length {A B} (f : A -> bool) (l : list (A * B)) :
  List.length (filter (fun ab : A * B => f (fst ab)) l)
  = List.length (filter f (map fst l)).
Proof.
  induction l as [|[a b] l IH]; [reflexivity|].
  simpl. destruct (f a); simpl; now rewrite IH.
Qed.

Lemma present_sections_count (o : dict) :
  len (Observed.present_sections o) = Expected.section_count o.
Proof.
  unfold Observed.present_sections, Expected.section_count, len.
  now rewrite (filter_fst_length (fun k => has_key k o) section_mapping).
Qed.

Lemma section_count_bounds (o : dict) :
  0 <= Expected.section_count o <= 5.
Proof.
  unfold Expected.section_count, len.
  pose proof (filter_length_le (fun k => has_key k o) known_sections) as H.
  simpl List.length in H at 2. lia.
Qed.

(** X3. Whatever JSON value and whatever index it is given, the tile renderer
    answers with a consistent pair: either no section at all (index 0,
    count 0) or an index inside [[0, count - 1]] with a count of at most
    five.  A value that is not an object always yields count 0. *)
Theorem tiles_index_always_consistent (extracted_data : json) (current_index : Z) :
  (snd (fst (create_extraction_tiles extracted_data current_index)) = 0
   /\ snd (create_extraction_tiles extracted_data current_index) = 0)
  \/ (0 <= snd (fst (create_extraction_tiles extracted_data current_index))
           < snd (create_extraction_tiles extracted_data current_index)
      /\ snd (create_extraction_tiles extracted_data current_index) <= 5
      /\ is_dict extracted_data = true).
Proof.
  destruct (is_dict extracted_data) eqn:Hd.
  - destruct extracted_data; try discriminate.
    pose proof (section_count_bounds o) as Hb.
    destruct (Z.eq_dec (Expected.section_count o) 0) as [Hz|Hnz].
    + left. now rewrite (create_extraction_tiles_no_sections o _ Hz).
    + assert (Hpos : 0 < Expected.section_count o) by lia.
      destruct (create_extraction_tiles_clamps o current_index Hpos)
        as [html ->].
      pose proof (clamp_in_range _ current_index Hpos).
      right. simpl. repeat split; lia.
  - destruct (create_extraction_tiles_non_object extracted_data current_index Hd)
      as [html ->].
    left. split; reflexivity.
Qed.

(** X4. For an object holding at least one section, the tile shown is the one
    found at the (clamped) index in the list of present sections, taken in
    the fixed display order: it carries that section's label and the value
    bound to that section's key. *)
Theorem tile_shows_the_indexed_section (o : dict) (current_index : Z) :
  0 < Expected.section_count o ->
  exists key label value,
    nth_error (Observed.present_sections o)
              (Z.to_nat (Expected.clamp (Expected.section_count o) current_index))
    = Some (key, label)
    /\ lookup key o = Some value
    /\ create_extraction_tiles (JObj o) current_index
       = (TilePanel label
                    (Expected.clamp (Expected.section_count o) current_index)
                    (Expected.section_count o) value,
          Expected.clamp (Expected.section_count o) current_index,
          Expected.section_count o).
Proof.
  intros Hpos.
  set (n := Expected.section_count o) in *.
  set (c := Expected.clamp n current_index).
  pose proof (clamp_in_range n current_index Hpos) as Hc. fold c in Hc.
  pose proof (present_sections_count o) as Hlen. fold n in Hlen.
  destruct (nth_error (Observed.present_sections o) (Z.to_nat c))
    as [[key label]|] eqn:Hnth.
  2:{ apply nth_error_None in Hnth. unfold len in Hlen. lia. }
  assert (Hpresent : has_key key o = true).
  { apply nth_error_In in Hnth. unfold Observed.present_sections in Hnth.
    apply filter_In in Hnth. exact (proj2 Hnth). }
  unfold has_key in Hpresent.
  destruct (lookup key o) as [value|] eqn:Hlookup; [|discriminate].
  exists key, label, value. split; [reflexivity|]. split; [exact Hlookup|].
  unfold create_extraction_tiles.
  rewrite collect_sections_values. cbn [app bind].
  fold (Observed.present_sections o).
  destruct (map (fun kl : string * string => dict_get o (fst kl) JNull)
                (Observed.present_sections o)) as [|v0 vs] eqn:Hvalues.
  { apply (f_equal (@List.length json)) in Hvalues.
    rewrite length_map in Hvalues. unfold len in Hlen.
    simpl in Hvalues. lia. }
  rewrite <- Hvalues.
  assert (Hsize : len (map (fun kl : string * string => dict_get o (fst kl) JNull)
                           (Observed.present_sections o)) = n).
  { unfold len. rewrite length_map. exact Hlen. }
  rewrite Hsize, (clamp_max_min _ _ Hpos). fold c.
  rewrite (list_getitem_nth _ c (dict_get o key JNull)); [|lia|].
  2:{ rewrite nth_error_map, Hnth. reflexivity. }
  rewrite (list_getitem_nth _ c label); [|lia|].
  2:{ rewrite nth_error_map, Hnth. reflexivity. }
  cbn [bind]. unfold dict_get. rewrite Hlookup. reflexivity.
Qed.

Lemma tile_shows_the_indexed_section_witness :
  exists key label value,
    nth_error (Observed.present_sections Sample.extracted_fields)
              (Z.to_nat (Expected.clamp
                           (Expected.section_count Sample.extracted_fields) 9))
    = Some (key, label)
    /\ lookup key Sample.extracted_fields = Some value
    /\ create_extraction_tiles (JObj Sample.extracted_fields) 9
       = (TilePanel label
                    (Expected.clamp
                       (Expected.section_count Sample.extracted_fields) 9)
                    (Expected.section_count Sample.extracted_fields) value,
          Expected.clamp (Expected.section_count Sample.extracted_fields) 9,
          Expected.section_count Sample.extracted_fields).
Proof.
  apply (tile_shows_the_indexed_section Sample.extracted_fields 9).
  reflexivity.
Defined.

(** ** Navigation, composed *)

Lemma navigate_on_object
  (rt : Runtime) (raw : string) (parsed : json) (o : dict)
  (direction : string) (current_index : Z) :
  raw <> "" ->
  json_loads rt raw = Return parsed ->
  get parsed "extractedData" (JObj []) = Return (JObj o) ->
  navigate_extraction_tiles rt raw direction current_index
  = create_extraction_tiles
      (JObj o)
      (Observed.requested_index (Expected.section_count o) direction
                                current_index).
Proof.
  intros Hraw Hloads Hget. apply String.eqb_neq in Hraw.
  unfold navigate_extraction_tiles.
  rewrite Hraw, Hloads. cbn [bind]. rewrite Hget. cbn [bind].
  rewrite count_sections_object. cbn [bind].
  fold (Expected.section_count o).
  fold (Observed.requested_index (Expected.section_count o) direction
                                 current_index).
  destruct (create_extraction_tiles (JObj o) _) as [[html idx] n]. reflexivity.
Qed.

Lemma requested_next (section_count current_index : Z) :
  Observed.requested_index section_count "next" current_index
  = Z.min (section_count - 1) (current_index + 1).
Proof. reflexivity. Qed.

Lemma requested_prev (section_count current_index : Z) :
  Observed.requested_index section_count "prev" current_index
  = Z.max 0 (current_index - 1).
Proof. reflexivity. Qed.

(** X5. Stepping forward and then back returns to the tile one started from:
    from an index that has a successor, ["next"] moves to the following tile
    and ["prev"] from there moves back; both answers report the same section
    count. *)
Theorem next_then_prev_returns
  (rt : Runtime) (raw : string) (parsed : json) (o : dict) (current_index : Z) :
  raw <> "" ->
  json_loads rt raw = Return parsed ->
  get parsed "extractedData" (JObj []) = Return (JObj o) ->
  0 <= current_index < Expected.section_count o - 1 ->
  exists forward back,
    navigate_extraction_tiles rt raw "next" current_index
    = (forward, current_index + 1, Expected.section_count o)
    /\ navigate_extraction_tiles rt raw "prev" (current_index + 1)
       = (back, current_index, Expected.section_count o).
Proof.
  intros Hraw Hloads Hget Hrange.
  assert (Hpos : 0 < Expected.section_count o) by lia.
  rewrite !(navigate_on_object rt raw parsed o _ _ Hraw Hloads Hget).
  destruct (create_extraction_tiles_clamps
              o (Observed.requested_index (Expected.section_count o) "next"
                                          current_index) Hpos)
    as [forward Hforward].
  destruct (create_extraction_tiles_clamps
              o (Observed.requested_index (Expected.section_count o) "prev"
                                          (current_index + 1)) Hpos)
    as [back Hback].
  exists forward, back. rewrite Hforward, Hback.
  rewrite requested_next, requested_prev. unfold Expected.clamp.
  split; f_equal; f_equal;
    repeat match goal with
           | |- context [?a <? ?b] => destruct (Z.ltb_spec a b)
           end; lia.
Qed.

Lemma next_then_prev_returns_witness :
  exists forward back,
    navigate_extraction_tiles Sample.runtime "damage@0" "next" 0
    = (forward, 0 + 1, Expected.section_count Sample.extracted_fields)
    /\ navigate_extraction_tiles Sample.runtime "damage@0" "prev" (0 + 1)
       = (back, 0, Expected.section_count Sample.extracted_fields).
Proof.
  apply (next_then_prev_returns Sample.runtime "damage@0"
                                (Sample.damage_reply 0) Sample.extracted_fields 0).
  - discriminate.
  - reflexivity.
  - reflexivity.
  - vm_compute. split; [discriminate | reflexivity].
Defined.

(** ** The damage overlay *)

Lemma scale_coordinate_non_numeric (v : json) :
  Observed.numeric v = false ->
  exists e, forall dimension, scale_coordinate v dimension = Raise e.
Proof.
  intros Hv. destruct v; try discriminate; eexists; intros; reflexivity.
Qed.

Lemma pixel_coordinates_wrong_arity (image : Image) (box : list json) :
  len box <> 4 -> exists e, pixel_coordinates image box = Raise e.
Proof.
  intros Hlen. unfold pixel_coordinates, size.
  destruct box as [|a [|b [|c [|d [|x rest]]]]];
    try (eexists; reflexivity).
  exfalso. apply Hlen. reflexivity.
Qed.

Lemma overlay_without_coordinates
  (rt : Runtime) (image : Image) (box : list json) (e : exn) :
  pixel_coordinates image box = Raise e ->
  draw_bounding_box_on_image rt image box = image.
Proof.
  intros H. unfold draw_bounding_box_on_image. now rewrite H.
Qed.

Lemma overlay_shape (rt : Runtime) (image : Image) (box : list json) :
  draw_bounding_box_on_image rt image box = image
  \/ exists x1 y1 x2 y2,
      pixel_coordinates image box = Return (x1, y1, x2, y2)
      /\ copy_image rt image = Return tt
      /\ draw_command rt image (Rectangle x1 y1 x2 y2 "red" 3) = Return tt
      /\ draw_command rt (draw image (Rectangle x1 y1 x2 y2 "red" 3))
                      (Text x1 (y1 - 20) "Damage Area" "red") = Return tt
      /\ draw_bounding_box_on_image rt image box
         = draw (draw image (Rectangle x1 y1 x2 y2 "red" 3))
                (Text x1 (y1 - 20) "Damage Area" "red").
Proof.
  unfold draw_bounding_box_on_image, copy.
  destruct (pixel_coordinates image box) as [[[[x1 y1] x2] y2]|e];
    cbn [bind]; [|now left].
  destruct (copy_image rt image) as [[]|e] eqn:Hcopy; cbn [bind]; [|now left].
  destruct (draw_command rt image (Rectangle x1 y1 x2 y2 "red" 3))
    as [[]|e] eqn:Hrect; cbn [bind]; [|now left].
  destruct (draw_command rt (draw image (Rectangle x1 y1 x2 y2 "red" 3))
                         (Text x1 (y1 - 20) "Damage Area" "red"))
    as [[]|e] eqn:Htext; cbn [bind]; [|now left].
  right. exists x1, y1, x2, y2. repeat split; assumption || reflexivity.
Qed.

(** X6. The overlay never alters the image it is given beyond drawing on a
    copy: source and size are kept, and the result is either the image
    unchanged or the image with exactly one red rectangle and its
    ["Damage Area"] label added, the label 20 pixels above the rectangle's
    corner.  The image comes back unchanged when the box does not have four
    elements, when it holds an element that is not a number, when the image
    cannot be copied, and when the rectangle or the label is refused by the
    drawing call. *)
Theorem overlay_adds_box_or_nothing
  (rt : Runtime) (image : Image) (box : list json) :
  img_source (draw_bounding_box_on_image rt image box) = img_source image
  /\ size (draw_bounding_box_on_image rt image box) = size image
  /\ (draw_bounding_box_on_image rt image box = image
      \/ exists x1 y1 x2 y2,
          pixel_coordinates image box = Return (x1, y1, x2, y2)
          /\ img_drawn (draw_bounding_box_on_image rt image box)
             = img_drawn image ++ [Rectangle x1 y1 x2 y2 "red" 3;
                                   Text x1 (y1 - 20) "Damage Area" "red"])
  /\ (len box <> 4 -> draw_bounding_box_on_image rt image box = image)
  /\ ((exists v, In v box /\ Observed.numeric v = false) ->
      draw_bounding_box_on_image rt image box = image)
  /\ (forall e, copy_image rt image = Raise e ->
                draw_bounding_box_on_image rt image box = image)
  /\ (forall x1 y1 x2 y2 e,
        pixel_coordinates image box = Return (x1, y1, x2, y2) ->
        draw_command rt image (Rectangle x1 y1 x2 y2 "red" 3) = Raise e
        \/ draw_command rt (draw image (Rectangle x1 y1 x2 y2 "red" 3))
                        (Text x1 (y1 - 20) "Damage Area" "red") = Raise e ->
        draw_bounding_box_on_image rt image box = image).
Proof.
  pose proof (overlay_shape rt image box) as Hshape.
  assert (Harity : len box <> 4 ->
                   draw_bounding_box_on_image rt image box = image).
  { intros Hlen.
    destruct (pixel_coordinates_wrong_arity image box Hlen) as [e He].
    exact (overlay_without_coordinates rt image box e He). }
  split; [|split; [|split; [|split; [|split; [|split]]]]].
  - destruct Hshape as [->|(x1 & y1 & x2 & y2 & _ & _ & _ & _ & ->)];
      reflexivity.
  - destruct Hshape as [->|(x1 & y1 & x2 & y2 & _ & _ & _ & _ & ->)];
      reflexivity.
  - destruct Hshape as [->|(x1 & y1 & x2 & y2 & Hpix & _ & _ & _ & ->)];
      [now left|].
    right. exists x1, y1, x2, y2. split; [exact Hpix|].
    simpl. now rewrite <- app_assoc.
  - exact Harity.
  - intros (v & Hin & Hv).
    destruct (Z.eq_dec (len box) 4) as [Hlen|Hlen]; [|now apply Harity].
    destruct box as [|a [|b [|c [|d [|x rest]]]]];
      try (exfalso; unfold len in Hlen; cbn [List.length] in Hlen; lia).
    destruct (scale_coordinate_non_numeric v Hv) as [e He].
    assert (Hraise : exists e', pixel_coordinates image [a; b; c; d] = Raise e').
    { unfold pixel_coordinates, size.
      destruct Hin as [<-|[<-|[<-|[<-|[]]]]]; rewrite ?He;
        repeat match goal with
               | |- context [scale_coordinate ?u ?dim] =>
                   destruct (scale_coordinate u dim); cbn [bind]; rewrite ?He
               end; eexists; reflexivity. }
    destruct Hraise as [e' He'].
    exact (overlay_without_coordinates rt image _ e' He').
  - intros e He. unfold draw_bounding_box_on_image.
    destruct (pixel_coordinates image box) as [[[[x1 y1] x2] y2]|e'];
      cbn [bind]; [|reflexivity].
    rewrite He. reflexivity.
  - intros x1 y1 x2 y2 e Hpix Hrefused.
    unfold draw_bounding_box_on_image, copy. rewrite Hpix. cbn [bind].
    destruct (copy_image rt image); cbn [bind]; [|reflexivity].
    destruct Hrefused as [Hrect|Htext].
    + rewrite Hrect. reflexivity.
    + destruct (draw_command rt image _); cbn [bind]; [|reflexivity].
      rewrite Htext. reflexivity.
Qed.

Lemma overlay_adds_box_or_nothing_witness :
  draw_bounding_box_on_image Sample.runtime (Sample.photo "a.png")
                             [JInt 100; JStr "200"; JInt 300; JInt 400]
  = Sample.photo "a.png"
  /\ draw_bounding_box_on_image Sample.runtime (Sample.photo "a.png")
                                [JInt 300; JInt 400; JInt 100; JInt 200]
     = Sample.photo "a.png".
Proof.
  split.
  - apply (proj1 (proj2 (proj2 (proj2 (proj2
             (overlay_adds_box_or_nothing
                Sample.runtime (Sample.photo "a.png")
                [JInt 100; JStr "200"; JInt 300; JInt 400])))))).
    exists (JStr "200"). split; [right; left; reflexivity | reflexivity].
  - apply (proj2 (proj2 (proj2 (proj2 (proj2 (proj2
             (overlay_adds_box_or_nothing
                Sample.runtime (Sample.photo "a.png")
                [JInt 300; JInt 400; JInt 100; JInt 200]))))))
             800 300 400 100
             (Exn ValueError "x1 must be greater than or equal to x0")).
    + reflexivity.
    + left. reflexivity.
Defined.

(** X7. Whenever the windshield workflow resolves a damage image, the reply
    was well formed all the way down: [extractedData], its
    [photographicEvidence] and the [damageLocation] inside are objects, the
    box is a list of four elements, the index is an integer (or boolean)
    below the number of images and not below its negation, and the damage
    image is what [draw_bounding_box_on_image] returns for the image that
    index selects: that image with the box drawn, or that image unmarked
    when the box could not be drawn. *)
Theorem resolved_damage_comes_from_a_well_formed_location
  (rt : Runtime) (all_images : list Image) (extracted_data : json)
  (resolved : Image) :
  resolve_damage_image rt all_images extracted_data = Return (Some resolved) ->
  exists o evidence location box index i image,
    extracted_data = JObj o
    /\ lookup "photographicEvidence" o = Some (JObj evidence)
    /\ lookup "damageLocation" evidence = Some (JObj location)
    /\ lookup "box_2d" location = Some (JArr box)
    /\ len box = 4
    /\ lookup "imageIndex" location = Some index
    /\ as_index index = Return i
    /\ - len all_images <= i < len all_images
    /\ list_getitem all_images i = Return image
    /\ resolved = draw_bounding_box_on_image rt image box
    /\ (resolved = image
        \/ exists x1 y1 x2 y2,
            pixel_coordinates image box = Return (x1, y1, x2, y2)
            /\ resolved = draw (draw image (Rectangle x1 y1 x2 y2 "red" 3))
                               (Text x1 (y1 - 20) "Damage Area" "red")).
Proof.
  intros H. unfold resolve_damage_image in H.
  destruct extracted_data as [| | | | | |o]; try discriminate H.
  cbn [get bind] in H. unfold dict_get in H.
  destruct (lookup "photographicEvidence" o) as [evidence|] eqn:Hevidence;
    [|discriminate H].
  destruct evidence as [| | | | | |evidence]; try discriminate H.
  cbn [get bind] in H. unfold dict_get in H.
  destruct (lookup "damageLocation" evidence) as [location|] eqn:Hlocation;
    [|discriminate H].
  destruct location as [|b|z|f|s|l|location].
  - discriminate H.
  - destruct b; discriminate H.
  - cbn [truthy] in H. destruct (negb (z =? 0)); discriminate H.
  - cbn [truthy] in H. destruct (negb (PrimFloat.eqb f 0)); discriminate H.
  - cbn [truthy contains bind] in H.
    destruct (negb (s =? "")%string); [|discriminate H].
    cbn [bind] in H.
    destruct (substring_of "imageIndex" s); cbn [bind] in H;
      [destruct (substring_of "box_2d" s)|]; discriminate H.
  - cbn [truthy contains bind] in H.
    destruct l as [|x l]; [discriminate H|].
    cbn [bind] in H.
    destruct (existsb (is_str "imageIndex") (x :: l)); cbn [bind] in H;
      [destruct (existsb (is_str "box_2d") (x :: l))|]; discriminate H.
  - cbn [truthy contains bind] in H.
    destruct location as [|entry location']; [discriminate H|].
    set (loc := entry :: location') in *.
    cbn [bind] in H.
    destruct (has_key "imageIndex" loc) eqn:Hhas_index; cbn [bind] in H;
      [|discriminate H].
    destruct (has_key "box_2d" loc) eqn:Hhas_box; [|discriminate H].
    unfold locate_damage in H. cbn [getitem] in H.
    destruct (lookup "imageIndex" loc) as [index|] eqn:Hindex;
      [|discriminate H].
    cbn [bind] in H.
    destruct (lookup "box_2d" loc) as [coords|] eqn:Hcoords;
      [|discriminate H].
    cbn [bind] in H.
    destruct coords as [| | | | |box|]; try discriminate H.
    destruct (Z.eqb_spec (len box) 4) as [Hlen|]; [|discriminate H].
    destruct (lt_int index (len all_images)) as [below|] eqn:Hbelow;
      [|discriminate H].
    cbn [bind] in H.
    destruct below; [|discriminate H].
    destruct (as_index index) as [i|] eqn:Hi; [|discriminate H].
    cbn [bind] in H.
    destruct (list_getitem all_images i) as [image|] eqn:Himage;
      [|discriminate H].
    cbn [bind] in H. inversion H; subst resolved.
    exists o, evidence, loc, box, index, i, image.
    repeat (split; [first [reflexivity | assumption]|]).
    split; [|split; [assumption|split; [reflexivity|]]].
    2:{ destruct (overlay_shape rt image box)
          as [->|(x1 & y1 & x2 & y2 & Hpix & _ & _ & _ & ->)]; [now left|].
        right. exists x1, y1, x2, y2. split; [exact Hpix | reflexivity]. }
    assert (Hupper : i < len all_images).
    { destruct index; try discriminate Hi; cbn in Hi, Hbelow;
        inversion Hi; inversion Hbelow; subst;
        match goal with
        | Hlt : (?a <? ?b) = true |- _ => apply Z.ltb_lt in Hlt; exact Hlt
        end. }
    split; [|exact Hupper].
    unfold list_getitem in Himage. fold (len all_images) in Himage.
    destruct (Z.ltb_spec i 0).
    + destruct (Z.leb_spec 0 (i + len all_images)); [lia|].
      discriminate Himage.
    + lia.
Qed.

Lemma resolved_damage_comes_from_a_well_formed_location_witness :
  exists o evidence location box index i image,
    JObj (Sample.extracted_fields_at 1) = JObj o
    /\ lookup "photographicEvidence" o = Some (JObj evidence)
    /\ lookup "damageLocation" evidence = Some (JObj location)
    /\ lookup "box_2d" location = Some (JArr box)
    /\ len box = 4
    /\ lookup "imageIndex" location = Some index
    /\ as_index index = Return i
    /\ - len [Sample.photo "a.png"; Sample.photo "b.png"] <= i
       < len [Sample.photo "a.png"; Sample.photo "b.png"]
    /\ list_getitem [Sample.photo "a.png"; Sample.photo "b.png"] i = Return image
    /\ draw_bounding_box_on_image Sample.runtime (Sample.photo "b.png")
                                  [JInt 100; JInt 200; JInt 300; JInt 400]
       = draw_bounding_box_on_image Sample.runtime image box
    /\ (draw_bounding_box_on_image Sample.runtime (Sample.photo "b.png")
                                   [JInt 100; JInt 200; JInt 300; JInt 400]
        = image
        \/ exists x1 y1 x2 y2,
            pixel_coordinates image box = Return (x1, y1, x2, y2)
            /\ draw_bounding_box_on_image
                 Sample.runtime (Sample.photo "b.png")
                 [JInt 100; JInt 200; JInt 300; JInt 400]
               = draw (draw image (Rectangle x1 y1 x2 y2 "red" 3))
                      (Text x1 (y1 - 20) "Damage Area" "red")).
Proof.
  apply (resolved_damage_comes_from_a_well_formed_location
           Sample.runtime
           [Sample.photo "a.png"; Sample.photo "b.png"]
           (JObj (Sample.extracted_fields_at 1))).
  reflexivity.
Defined.

(** ** What each workflow sends out *)

Lemma webhook_posts_app (t1 t2 : list Event) :
  Observed.webhook_posts (t1 ++ t2)
  = (Observed.webhook_posts t1 + Observed.webhook_posts t2)%nat.
Proof.
  unfold Observed.webhook_posts. now rewrite filter_app, length_app.
Qed.

Lemma model_calls_app (t1 t2 : list Event) :
  model_calls (t1 ++ t2) = (model_calls t1 + model_calls t2)%nat.
Proof.
  unfold model_calls. now rewrite filter_app, length_app.
Qed.

Lemma create_extraction_tiles_from_zero (extracted_data : json) :
  snd (fst (create_extraction_tiles extracted_data 0)) = 0.
Proof.
  destruct (is_dict extracted_data) eqn:Hd.
  - destruct extracted_data; try discriminate.
    pose proof (section_count_bounds o) as Hb.
    destruct (Z.eq_dec (Expected.section_count o) 0) as [Hz|Hnz].
    + now rewrite (create_extraction_tiles_no_sections o _ Hz).
    + assert (Hpos : 0 < Expected.section_count o) by lia.
      destruct (create_extraction_tiles_clamps o 0 Hpos) as [html ->].
      cbn [fst snd]. unfold Expected.clamp.
      destruct (Z.ltb_spec 0 0); [lia|].
      destruct (Z.ltb_spec (Expected.section_count o - 1) 0); lia.
  - now destruct (create_extraction_tiles_non_object extracted_data 0 Hd)
      as [html ->].
Qed.

Lemma send_webhook_log_cases
  (rt : Runtime) (flow_type : string) (user : option string) (data : json) :
  (forall body, encode_payload rt data = Return body ->
                send_webhook_log rt flow_type user data
                = [WebhookPost flow_type user data])
  /\ (forall e, encode_payload rt data = Raise e ->
                send_webhook_log rt flow_type user data = []).
Proof.
  unfold send_webhook_log. split; intros ? ->; reflexivity.
Qed.

Lemma send_webhook_log_at_most_once
  (rt : Runtime) (flow_type : string) (user : option string) (data : json) :
  (Observed.webhook_posts (send_webhook_log rt flow_type user data) <= 1)%nat
  /\ model_calls (send_webhook_log rt flow_type user data) = 0%nat.
Proof.
  unfold send_webhook_log, Observed.webhook_posts, model_calls.
  destruct (encode_payload rt data); split; simpl; (lia || reflexivity).
Qed.

(** X8. An accident submission that yields at least one image returns the
    reply text unchanged, all the images as the gallery and their number as
    the count, after the model has been asked at most once.  It is logged at
    most once: when the payload (the parsed reply, or [{"raw_result": reply}]
    when the reply is not JSON) can be encoded, exactly one post carrying it
    follows the model call; when it cannot, nothing is posted and the result
    returned is the same. *)
Theorem accident_logs_each_encodable_result
  (rt : Runtime) (files : Upload) (zip_file : option UploadedFile)
  (request : option Request) :
  gather_images rt files zip_file <> [] ->
  fst (process_files_accident rt files zip_file request)
  = (fst (process_documents_with_gemini
            rt (gather_images rt files zip_file) "accident"),
     Some (gather_images rt files zip_file),
     len (gather_images rt files zip_file))
  /\ (forall body,
        encode_payload
          rt (Observed.accident_payload
                rt (fst (process_documents_with_gemini
                           rt (gather_images rt files zip_file) "accident")))
        = Return body ->
        snd (process_files_accident rt files zip_file request)
        = snd (process_documents_with_gemini
                 rt (gather_images rt files zip_file) "accident")
          ++ [WebhookPost
                "accident" (request_username request)
                (Observed.accident_payload
                   rt (fst (process_documents_with_gemini
                              rt (gather_images rt files zip_file) "accident")))]
        /\ Observed.webhook_posts
             (snd (process_files_accident rt files zip_file request)) = 1%nat)
  /\ (forall e,
        encode_payload
          rt (Observed.accident_payload
                rt (fst (process_documents_with_gemini
                           rt (gather_images rt files zip_file) "accident")))
        = Raise e ->
        snd (process_files_accident rt files zip_file request)
        = snd (process_documents_with_gemini
                 rt (gather_images rt files zip_file) "accident")
        /\ Observed.webhook_posts
             (snd (process_files_accident rt files zip_file request)) = 0%nat)
  /\ (Observed.webhook_posts
        (snd (process_files_accident rt files zip_file request)) <= 1)%nat
  /\ (model_calls (snd (process_files_accident rt files zip_file request))
      <= 1)%nat.
Proof.
  intros Hne.
  pose proof (gemini_at_most_one_call rt (gather_images rt files zip_file)
                                      "accident") as [Hcalls Hposts].
  unfold process_files_accident.
  destruct (gather_images rt files zip_file) as [|img imgs] eqn:E;
    [congruence|].
  destruct (process_documents_with_gemini rt (img :: imgs) "accident")
    as [result calls].
  cbn [fst snd] in *.
  assert (Htrace :
    calls ++ match json_loads rt result with
             | Return parsed_result =>
                 send_webhook_log rt "accident" (request_username request)
                                  parsed_result
             | Raise _ =>
                 send_webhook_log rt "accident" (request_username request)
                                  (JObj [("raw_result", JStr result)])
             end
    = calls ++ send_webhook_log rt "accident" (request_username request)
                                (Observed.accident_payload rt result)).
  { unfold Observed.accident_payload.
    destruct (json_loads rt result); reflexivity. }
  rewrite Htrace.
  pose proof (send_webhook_log_cases
                rt "accident" (request_username request)
                (Observed.accident_payload rt result)) as [Hsent Hnot].
  pose proof (send_webhook_log_at_most_once
                rt "accident" (request_username request)
                (Observed.accident_payload rt result)) as [Hmost Hnone].
  split; [reflexivity|]. split; [|split; [|split]].
  - intros body Hbody. rewrite (Hsent body Hbody).
    split; [reflexivity|].
    rewrite webhook_posts_app, Hposts. reflexivity.
  - intros e He. rewrite (Hnot e He), app_nil_r.
    split; [reflexivity | exact Hposts].
  - rewrite webhook_posts_app, Hposts. exact Hmost.
  - rewrite model_calls_app, Hnone. lia.
Qed.

Lemma accident_logs_each_encodable_result_witness :
  Observed.webhook_posts
    (snd (process_files_accident
            Sample2.runtime (Sample.upload ["not json.png"]) None None))
  = 1%nat
  /\ Observed.webhook_posts
       (snd (process_files_accident
               Sample2.runtime (Sample.upload ["overflow.png"]) None None))
     = 0%nat.
Proof.
  split.
  - apply (proj1 (proj2 (accident_logs_each_encodable_result
                           Sample2.runtime (Sample.upload ["not json.png"])
                           None None ltac:(discriminate)))
                 "{...}").
    reflexivity.
  - apply (proj1 (proj2 (proj2 (accident_logs_each_encodable_result
                                  Sample2.runtime
                                  (Sample.upload ["overflow.png"])
                                  None None ltac:(discriminate))))
                 (Exn ValueError
                      "Out of range float values are not JSON compliant")).
    reflexivity.
Defined.

(** X9. The windshield workflow asks the model at most once and logs at most
    once, and it logs only what it returns as a regular result: an error
    result (no gallery) is never posted to the webhook.  A regular result
    carries the serialised parsed reply, the raw reply, all the images with
    their count, and starts at tile 0; when the parsed reply can be encoded
    it comes with exactly one post of that reply, placed after the model
    call, and when it cannot, with none. *)
Theorem windshield_logs_only_regular_results
  (rt : Runtime) (files : Upload) (zip_file : option UploadedFile)
  (request : option Request) :
  (model_calls (snd (process_files_windshield rt files zip_file request))
   <= 1)%nat
  /\ (Observed.webhook_posts
        (snd (process_files_windshield rt files zip_file request)) <= 1)%nat
  /\ (image_gallery (fst (process_files_windshield rt files zip_file request))
      = None ->
      Observed.webhook_posts
        (snd (process_files_windshield rt files zip_file request)) = 0%nat)
  /\ (image_gallery (fst (process_files_windshield rt files zip_file request))
      <> None ->
      exists parsed_result,
        json_loads rt
          (raw_result (fst (process_files_windshield rt files zip_file request)))
        = Return parsed_result
        /\ raw_result (fst (process_files_windshield rt files zip_file request))
           = fst (process_documents_with_gemini
                    rt (gather_images rt files zip_file) "windshield")
        /\ (forall body,
              encode_payload rt parsed_result = Return body ->
              snd (process_files_windshield rt files zip_file request)
              = snd (process_documents_with_gemini
                       rt (gather_images rt files zip_file) "windshield")
                ++ [WebhookPost "windshield" (request_username request)
                                parsed_result])
        /\ (forall e,
              encode_payload rt parsed_result = Raise e ->
              snd (process_files_windshield rt files zip_file request)
              = snd (process_documents_with_gemini
                       rt (gather_images rt files zip_file) "windshield"))
        /\ complete_json
             (fst (process_files_windshield rt files zip_file request))
           = json_dumps rt parsed_result
        /\ image_gallery
             (fst (process_files_windshield rt files zip_file request))
           = Some (gather_images rt files zip_file)
        /\ image_count
             (fst (process_files_windshield rt files zip_file request))
           = len (gather_images rt files zip_file)
        /\ current_idx
             (fst (process_files_windshield rt files zip_file request)) = 0).
Proof.
  pose proof (gemini_at_most_one_call rt (gather_images rt files zip_file)
                                      "windshield") as [Hcalls Hposts].
  unfold process_files_windshield.
  destruct (gather_images rt files zip_file) as [|img imgs] eqn:E.
  { cbn. split; [lia|]. split; [lia|]. split; [reflexivity | congruence]. }
  destruct (process_documents_with_gemini rt (img :: imgs) "windshield")
    as [result calls].
  cbn [fst snd] in *.
  assert (Herror : forall message,
    (model_calls (snd (windshield_error message, calls)) <= 1)%nat
    /\ (Observed.webhook_posts (snd (windshield_error message, calls)) <= 1)%nat
    /\ (image_gallery (fst (windshield_error message, calls)) = None ->
        Observed.webhook_posts (snd (windshield_error message, calls)) = 0%nat)
    /\ (image_gallery (fst (windshield_error message, calls)) <> None ->
        False)).
  { intros message. cbn [fst snd]. split; [exact Hcalls|].
    split; [rewrite Hposts; lia|]. split; [intros _; exact Hposts|].
    intros H. now apply H. }
  destruct (json_loads rt result) as [parsed_result|e] eqn:Hloads.
  2:{ destruct (Herror ("Error parsing result: " +s+ result))
        as (H1 & H2 & H3 & H4).
      split; [exact H1|]. split; [exact H2|]. split; [exact H3|].
      intros H. destruct (H4 H). }
  destruct (extract_sections parsed_result) as [[[dc ed] ca]|e].
  2:{ cbn [bind].
      destruct (Herror ("Error: " +s+ exn_msg e)) as (H1 & H2 & H3 & H4).
      split; [exact H1|]. split; [exact H2|]. split; [exact H3|].
      intros H. destruct (H4 H). }
  cbn [bind].
  pose proof (create_extraction_tiles_from_zero ed) as Hzero.
  destruct (create_extraction_tiles ed 0) as [[html idx] total].
  cbn [fst snd] in Hzero. subst idx.
  destruct (resolve_damage_image rt (img :: imgs) ed) as [damage|e].
  2:{ cbn [bind].
      destruct (Herror ("Error: " +s+ exn_msg e)) as (H1 & H2 & H3 & H4).
      split; [exact H1|]. split; [exact H2|]. split; [exact H3|].
      intros H. destruct (H4 H). }
  cbn [bind fst snd image_gallery raw_result complete_json image_count
       current_idx].
  pose proof (send_webhook_log_cases
                rt "windshield" (request_username request) parsed_result)
    as [Hsent Hnot].
  pose proof (send_webhook_log_at_most_once
                rt "windshield" (request_username request) parsed_result)
    as [Hmost Hnone].
  split; [rewrite model_calls_app, Hnone; lia|].
  split; [rewrite webhook_posts_app, Hposts; exact Hmost|].
  split; [discriminate|].
  intros _. exists parsed_result.
  split; [exact Hloads|]. split; [reflexivity|].
  split; [intros body Hbody; now rewrite (Hsent body Hbody)|].
  split; [intros e He; now rewrite (Hnot e He), app_nil_r|].
  repeat split.
Qed.

Lemma windshield_logs_only_regular_results_witness :
  Observed.webhook_posts
    (snd (process_files_windshield
            Sample.runtime (Sample.upload ["not json.png"]) None None))
  = 0%nat
  /\ exists parsed_result,
      json_loads Sample2.runtime
        (raw_result (fst (process_files_windshield
                            Sample2.runtime (Sample.upload ["overflow.png"])
                            None None)))
      = Return parsed_result
      /\ snd (process_files_windshield
                Sample2.runtime (Sample.upload ["overflow.png"]) None None)
         = snd (process_documents_with_gemini
                  Sample2.runtime
                  (gather_images Sample2.runtime
                                 (Sample.upload ["overflow.png"]) None)
                  "windshield").
Proof.
  split.
  - apply (proj1 (proj2 (proj2 (windshield_logs_only_regular_results
                                  Sample.runtime
                                  (Sample.upload ["not json.png"])
                                  None None)))).
    reflexivity.
  - destruct (proj2 (proj2 (proj2 (windshield_logs_only_regular_results
                                     Sample2.runtime
                                     (Sample.upload ["overflow.png"])
                                     None None)))
                    ltac:(discriminate))
      as (parsed_result & Hloads & _ & _ & Hnot & _).
    exists parsed_result. split; [exact Hloads|].
    apply (Hnot (Exn ValueError
                     "Out of range float values are not JSON compliant")).
    vm_compute in Hloads. inversion Hloads. reflexivity.
Defined.

(** X10. A reply that is valid JSON but is not an object, or whose
    [extractedData] is bound to something that is not an object ([null], a
    list, a string, a number), turns the whole windshield result into the
    error result: its message names the offending type, the checklist and
    validation panels are not returned, and nothing is logged, although the
    model has been called. *)
Theorem windshield_needs_object_sections
  (rt : Runtime) (files : Upload) (zip_file : option UploadedFile)
  (request : option Request) (parsed_result : json) :
  gather_images rt files zip_file <> [] ->
  json_loads rt (fst (process_documents_with_gemini
                        rt (gather_images rt files zip_file) "windshield"))
  = Return parsed_result ->
  (is_dict parsed_result = false ->
   process_files_windshield rt files zip_file request
   = (windshield_error ("Error: '" +s+ type_name parsed_result
                        +s+ "' object has no attribute 'get'"),
      snd (process_documents_with_gemini
             rt (gather_images rt files zip_file) "windshield")))
  /\ (forall top value,
        parsed_result = JObj top ->
        lookup "extractedData" top = Some value ->
        is_dict value = false ->
        process_files_windshield rt files zip_file request
        = (windshield_error ("Error: '" +s+ type_name value
                             +s+ "' object has no attribute 'get'"),
           snd (process_documents_with_gemini
                  rt (gather_images rt files zip_file) "windshield"))).
Proof.
  intros Hne Hloads.
  unfold process_files_windshield.
  destruct (gather_images rt files zip_file) as [|img imgs] eqn:E;
    [congruence|].
  destruct (process_documents_with_gemini rt (img :: imgs) "windshield")
    as [result calls].
  cbn [fst snd] in *. rewrite Hloads.
  split.
  - intros Hnot. destruct parsed_result; try discriminate; reflexivity.
  - intros top value -> Hvalue Hnot.
    assert (Hed : dict_get top "extractedData" (JObj []) = value)
      by (unfold dict_get; now rewrite Hvalue).
    unfold extract_sections. cbn [get bind]. rewrite Hed.
    destruct (create_extraction_tiles value 0) as [[html idx] total].
    unfold resolve_damage_image.
    destruct value; try discriminate; reflexivity.
Qed.

Lemma windshield_needs_object_sections_witness :
  process_files_windshield
    Sample2.runtime (Sample.upload ["null-data.png"]) None None
  = (windshield_error "Error: 'NoneType' object has no attribute 'get'",
     [ModelCall ["null-data.png"] "windshield instructions"]).
Proof.
  apply (proj2 (windshield_needs_object_sections
                  Sample2.runtime (Sample.upload ["null-data.png"]) None None
                  (JObj [("extractedData", JNull)])
                  ltac:(discriminate) eq_refl)
               [("extractedData", JNull)] JNull eq_refl eq_refl eq_refl).
Defined.

(** ** The checklist and validation panels *)

Lemma checklist_rows (checklist : dict) (items : list (string * string)) :
  map_result (fun kl : string * string =>
                let (key, label) := kl in
                let* status := get (JObj checklist) key (JBool false) in
                Return (label, truthy status)) items
  = Return (map (fun kl : string * string =>
                   (snd kl, truthy (dict_get checklist (fst kl) (JBool false))))
                items).
Proof.
  induction items as [|[key label] rest IH]; [reflexivity|].
  cbn [map_result]. rewrite IH. reflexivity.
Qed.

(** X11. The checklist panel of an object always has the same nine rows, in
    the same order; a row is marked present exactly when its key is bound to
    a truthy value inside the nested ["checklist"] object, so a missing key
    (or a missing ["checklist"]) shows as missing.  If the data, or its
    ["checklist"], is not an object, the panel is replaced by an error
    paragraph naming the type. *)
Theorem checklist_panel_rows (data : dict) :
  (forall checklist,
      dict_get data "checklist" (JObj []) = JObj checklist ->
      create_windshield_checklist_display (JObj data)
      = ChecklistPanel
          (dict_get data "summary" (JStr "Document checklist completed"))
          (map (fun kl : string * string =>
                  (snd kl, truthy (dict_get checklist (fst kl) (JBool false))))
               checklist_items))
  /\ (forall value,
        dict_get data "checklist" (JObj []) = value ->
        is_dict value = false ->
        create_windshield_checklist_display (JObj data)
        = Markup ("<p>Error creating checklist display: '"
                  +s+ type_name value
                  +s+ "' object has no attribute 'get'</p>"))
  /\ (forall value,
        is_dict value = false ->
        create_windshield_checklist_display value
        = Markup ("<p>Error creating checklist display: '"
                  +s+ type_name value
                  +s+ "' object has no attribute 'get'</p>")).
Proof.
  split; [|split].
  - intros checklist Hc. unfold create_windshield_checklist_display.
    cbn [get bind]. rewrite Hc, checklist_rows. reflexivity.
  - intros value Hv Hnot. unfold create_windshield_checklist_display.
    cbn [get bind]. rewrite Hv.
    destruct value; try discriminate; reflexivity.
  - intros value Hnot.
    destruct value; try discriminate; reflexivity.
Qed.

Lemma checklist_panel_rows_witness :
  create_windshield_checklist_display
    (JObj [("checklist", JObj [("repairOrder", JInt 1); ("civilIdBack", JNull)])])
  = ChecklistPanel
      (JStr "Document checklist completed")
      (map (fun kl : string * string =>
              (snd kl,
               truthy (dict_get [("repairOrder", JInt 1); ("civilIdBack", JNull)]
                                (fst kl) (JBool false))))
           checklist_items).
Proof.
  apply (proj1 (checklist_panel_rows
                  [("checklist",
                    JObj [("repairOrder", JInt 1); ("civilIdBack", JNull)])])).
  reflexivity.
Defined.

Lemma validation_rows_ok (checks : list json) :
  forallb Observed.renderable_check checks = true ->
  map_result (fun check =>
                let* check_name := get check "checkName" (JStr "Unknown Check") in
                let* check_status := get check "status" (JStr "UNKNOWN") in
                let* check_details :=
                  get check "details" (JStr "No details available") in
                let* _ := hashable check_status in
                Return (check_name, check_status, check_details))
             checks
  = Return (map (fun check => Observed.check_row (Observed.fields_of check))
                checks).
Proof.
  induction checks as [|check rest IH]; [reflexivity|].
  cbn [forallb]. intros H. apply andb_prop in H. destruct H as [Hc Hrest].
  cbn [map_result map]. rewrite (IH Hrest).
  destruct check; try discriminate Hc.
  cbn [get bind Observed.fields_of]. unfold Observed.renderable_check in Hc.
  unfold Observed.check_row.
  destruct (dict_get o "status" (JStr "UNKNOWN")); try discriminate Hc;
    reflexivity.
Qed.

Lemma validation_rows_bad (checks : list json) :
  forallb Observed.renderable_check checks = false ->
  exists e,
    map_result (fun check =>
                  let* check_name := get check "checkName" (JStr "Unknown Check") in
                  let* check_status := get check "status" (JStr "UNKNOWN") in
                  let* check_details :=
                    get check "details" (JStr "No details available") in
                  let* _ := hashable check_status in
                  Return (check_name, check_status, check_details))
               checks
    = Raise e.
Proof.
  induction checks as [|check rest IH]; [discriminate|].
  cbn [forallb]. intros H. apply andb_false_iff in H.
  cbn [map_result].
  destruct (Observed.renderable_check check) eqn:Hc.
  - destruct H as [H|H]; [discriminate|].
    destruct (IH H) as [e He]. rewrite He.
    destruct check; try discriminate Hc.
    cbn [get bind]. unfold Observed.renderable_check in Hc.
    destruct (dict_get o "status" (JStr "UNKNOWN")); try discriminate Hc;
      eexists; reflexivity.
  - clear H IH.
    destruct check; try (eexists; reflexivity).
    cbn [get bind]. unfold Observed.renderable_check in Hc.
    destruct (dict_get o "status" (JStr "UNKNOWN")); try discriminate Hc;
      eexists; reflexivity.
Qed.

(** X12. The validation panel is all or nothing.  For an object whose
    overall status is not a list or object and whose ["checks"] is a list of
    objects with such statuses, it shows one row per check, in order, with
    the defaults ["Unknown Check"], ["UNKNOWN"] and ["No details available"]
    for missing fields (and the defaults ["UNKNOWN"],
    ["No summary available"] and no rows for an empty object).  A single
    check that is not such an object, or a ["checks"] value that cannot be
    iterated (such as [null]), replaces the whole panel by an error
    paragraph. *)
Theorem validation_panel_all_or_nothing (analysis : dict) (checks : list json) :
  hashable (dict_get analysis "overallValidationStatus" (JStr "UNKNOWN"))
  = Return tt ->
  (dict_get analysis "checks" (JArr []) = JArr checks ->
   (forallb Observed.renderable_check checks = true ->
    create_validation_display (JObj analysis)
    = ValidationPanel
        (dict_get analysis "overallValidationStatus" (JStr "UNKNOWN"))
        (dict_get analysis "summary" (JStr "No summary available"))
        (map (fun check => Observed.check_row (Observed.fields_of check)) checks))
   /\ (forallb Observed.renderable_check checks = false ->
       exists message,
         create_validation_display (JObj analysis)
         = Markup ("<p>Error creating validation display: " +s+ message
                   +s+ "</p>")))
  /\ (forall e,
        iterate (dict_get analysis "checks" (JArr [])) = Raise e ->
        create_validation_display (JObj analysis)
        = Markup ("<p>Error creating validation display: " +s+ exn_msg e
                  +s+ "</p>")).
Proof.
  intros Hstatus. split.
  - intros Hchecks. split.
    + intros Hok. unfold create_validation_display.
      cbn [get bind]. rewrite Hstatus, Hchecks. cbn [bind iterate].
      rewrite (validation_rows_ok checks Hok). reflexivity.
    + intros Hbad. unfold create_validation_display.
      cbn [get bind]. rewrite Hstatus, Hchecks. cbn [bind iterate].
      destruct (validation_rows_bad checks Hbad) as [e ->].
      exists (exn_msg e). reflexivity.
  - intros e He. unfold create_validation_display.
    cbn [get bind]. rewrite Hstatus. cbn [bind]. rewrite He. reflexivity.
Qed.

Lemma validation_panel_all_or_nothing_witness :
  create_validation_display (JObj [("checks", JNull)])
  = Markup "<p>Error creating validation display: 'NoneType' object is not iterable</p>"
  /\ create_validation_display
       (JObj [("checks", JArr [JObj [("status", JStr "CONSISTENT")]])])
     = ValidationPanel
         (JStr "UNKNOWN") (JStr "No summary available")
         [(JStr "Unknown Check", JStr "CONSISTENT", JStr "No details available")].
Proof.
  split.
  - apply (proj2 (validation_panel_all_or_nothing
                    [("checks", JNull)] [] eq_refl)
                 (Exn TypeError "'NoneType' object is not iterable")).
    reflexivity.
  - apply (proj1 (proj1 (validation_panel_all_or_nothing
                           [("checks", JArr [JObj [("status", JStr "CONSISTENT")]])]
                           [JObj [("status", JStr "CONSISTENT")]] eq_refl)
                        eq_refl)).
    reflexivity.
Defined.

(** ** Accident replies *)

Lemma append_assoc (a b c : string) : (a +s+ b) +s+ c = a +s+ (b +s+ c).
Proof. induction a as [|x a IH]; simpl; [reflexivity | now rewrite IH]. Qed.

Lemma prefix_append (s t : string) : prefix s (s +s+ t) = true.
Proof.
  induction s as [|a s IH]; simpl; [now destruct t|].
  destruct (ascii_dec a a); [exact IH | congruence].
Qed.

Lemma run_lines_extends (statements : list (result string)) :
  forall summary, exists rest,
      run_lines summary statements = summary +s+ rest.
Proof.
  induction statements as [|[text|e] more IH]; intros summary.
  - exists "". simpl. induction summary; simpl; congruence.
  - destruct (IH (summary +s+ text)) as [rest Hrest].
    exists (text +s+ rest). simpl. now rewrite Hrest, append_assoc.
  - eexists. reflexivity.
Qed.

Lemma summary_stops_at_first_failure
  (rt : Runtime) (doc_data : dict) (doc_type first_key : string) (value : json)
  (statements : list (result string)) (label inner : string) :
  dict_get doc_data first_key (JObj []) = value ->
  is_dict value = false ->
  run_lines (Observed.summary_header doc_type)
            (line label (nested rt doc_data first_key inner) :: statements)
  = Observed.summary_header doc_type
    +s+ "Error creating summary: '" +s+ type_name value
    +s+ "' object has no attribute 'get'".
Proof.
  intros Hvalue Hnot. unfold nested, field. rewrite Hvalue.
  destruct value; try discriminate; reflexivity.
Qed.

(** X13. A document summary always begins with its
    ["**Document Type:** ..."] header, whatever the document holds, and it
    never fails: when the first block a form reads ([report_details] for
    Forms 1 and 3, [issuing_company] for Form 4, [violator_information] for
    Form 2, [vehicle_and_driver] for Form 5) is bound to something that is
    not an object, such as [null], the summary is the header followed by
    ["Error creating summary: "] and the name of the offending type. *)
Theorem summary_keeps_header_and_reports_failure
  (rt : Runtime) (doc_data : dict) (doc_type : string) :
  (exists rest,
      create_document_summary rt doc_data doc_type
      = Observed.summary_header doc_type +s+ rest)
  /\ prefix (Observed.summary_header doc_type)
            (create_document_summary rt doc_data doc_type) = true
  /\ (forall first_key value,
        In (doc_type, first_key)
           [("Police Report (Form 1)", "report_details");
            ("Traffic Accident Notification (Form 3)", "report_details");
            ("Insurance Policy (Form 4)", "issuing_company");
            ("Acceptance of Reconciliation (Form 2)", "violator_information");
            ("Hit and Run Report (Form 5)", "vehicle_and_driver")] ->
        dict_get doc_data first_key (JObj []) = value ->
        is_dict value = false ->
        create_document_summary rt doc_data doc_type
        = Observed.summary_header doc_type
          +s+ "Error creating summary: '" +s+ type_name value
          +s+ "' object has no attribute 'get'").
Proof.
  assert (Hext : exists rest,
             create_document_summary rt doc_data doc_type
             = Observed.summary_header doc_type +s+ rest).
  { unfold create_document_summary. fold (Observed.summary_header doc_type).
    repeat match goal with
           | |- context [if ?c then _ else _] => destruct c
           end;
      try apply run_lines_extends.
    exists "". generalize (Observed.summary_header doc_type).
    intros s. induction s; simpl; congruence. }
  split; [exact Hext|]. split.
  - destruct Hext as [rest ->]. apply prefix_append.
  - intros first_key value Hin Hvalue Hnot.
    simpl in Hin.
    destruct Hin as [H|[H|[H|[H|[H|[]]]]]]; inversion H; subst doc_type first_key;
      unfold create_document_summary;
      cbn [String.eqb Ascii.eqb Bool.eqb];
      match goal with
      | |- run_lines ?h _ = _ =>
          change h with (Observed.summary_header
                           ltac:(match type of H with
                                 | (?t, _) = _ => exact t
                                 end))
      end;
      cbn [app party_lines];
      now apply summary_stops_at_first_failure.
Qed.

Lemma summary_keeps_header_and_reports_failure_witness :
  create_document_summary
    Sample.runtime
    [("issuing_company", JNull); ("policy_summary", JObj [])]
    "Insurance Policy (Form 4)"
  = Observed.summary_header "Insurance Policy (Form 4)"
    +s+ "Error creating summary: '" +s+ type_name JNull
    +s+ "' object has no attribute 'get'".
Proof.
  apply (proj2 (proj2 (summary_keeps_header_and_reports_failure
                         Sample.runtime
                         [("issuing_company", JNull); ("policy_summary", JObj [])]
                         "Insurance Policy (Form 4)"))
               "issuing_company" JNull).
  - simpl. auto.
  - reflexivity.
  - reflexivity.
Defined.

Lemma has_key_false_not_In (k : string) (o : dict) :
  has_key k o = false -> forall kv, In kv o -> (fst kv =? k)%string = false.
Proof.
  intros Hk [k' v] Hin. simpl.
  destruct (String.eqb_spec k' k) as [->|]; [|reflexivity].
  assert (Hin' : In k (map fst o)) by (apply in_map_iff; now exists (k, v)).
  apply has_key_In in Hin'. congruence.
Qed.

Lemma filter_filter {A} (f g : A -> bool) (l : list A) :
  filter f (filter g l) = filter (fun x => f x && g x) l.
Proof.
  induction l as [|a l IH]; [reflexivity|].
  simpl. destruct (g a); simpl.
  - rewrite IH, andb_true_r. reflexivity.
  - rewrite IH, andb_false_r. reflexivity.
Qed.

(** X14. The accident normaliser lists the documents in the order of the
    reply: the keys of the document list are the keys of the reply that are
    bound to objects, in the reply's order, without ["validation_summary"],
    which is never a document.  The validation summary is the serialisation
    of the value of that key, and the empty string when the key is missing;
    a reply that parses to something other than an object gives no
    documents and no validation summary. *)
Theorem documents_follow_reply_order (rt : Runtime) (raw : string) (parsed : json) :
  raw <> "" ->
  prefix "Error" raw = false ->
  json_loads rt raw = Return parsed ->
  (forall top,
      parsed = JObj top ->
      exists documents,
        parse_and_format_json rt raw
        = Return (json_dumps rt parsed, documents,
                  match lookup "validation_summary" top with
                  | Some summary => json_dumps rt summary
                  | None => ""
                  end)
        /\ map doc_key documents
           = map fst (filter (fun kv : string * json =>
                                is_dict (snd kv)
                                && negb (fst kv =? "validation_summary")%string)
                             top)
        /\ ~ In "validation_summary" (map doc_key documents))
  /\ (is_dict parsed = false ->
      parse_and_format_json rt raw = Return (json_dumps rt parsed, [], "")).
Proof.
  intros Hraw Hprefix Hloads.
  apply String.eqb_neq in Hraw.
  unfold parse_and_format_json. rewrite Hraw, Hprefix, Hloads. cbn [orb].
  split.
  - intros top ->. eexists. split; [reflexivity|].
    assert (Hkeys :
      map doc_key
          (fold_left (add_document rt)
             (if has_key "validation_summary" top
              then filter (fun kv : string * json =>
                             negb (fst kv =? "validation_summary")%string) top
              else top) [])
      = map fst (filter (fun kv : string * json =>
                           is_dict (snd kv)
                           && negb (fst kv =? "validation_summary")%string)
                        top)).
    { rewrite add_document_keys. cbn [map app]. f_equal.
      destruct (has_key "validation_summary" top) eqn:Hk.
      - apply filter_filter.
      - apply filter_ext_in. intros kv Hin.
        rewrite (has_key_false_not_In _ _ Hk kv Hin). cbn [negb].
        now rewrite andb_true_r. }
    split; [exact Hkeys|].
    rewrite Hkeys. intros Hin. apply in_map_iff in Hin.
    destruct Hin as ([k v] & Hfst & Hfilter). simpl in Hfst. subst k.
    apply filter_In in Hfilter. destruct Hfilter as [_ Hboth].
    apply andb_prop in Hboth. destruct Hboth as [_ Hneq].
    simpl in Hneq. discriminate.
  - intros Hnot. destruct parsed; try discriminate; reflexivity.
Qed.

Lemma documents_follow_reply_order_witness :
  exists documents,
    parse_and_format_json Sample.runtime "accident"
    = Return (json_dumps Sample.runtime Sample.accident_reply, documents,
              match lookup "validation_summary" Sample.accident_fields with
              | Some summary => json_dumps Sample.runtime summary
              | None => ""
              end)
    /\ map doc_key documents
       = map fst (filter (fun kv : string * json =>
                            is_dict (snd kv)
                            && negb (fst kv =? "validation_summary")%string)
                         Sample.accident_fields)
    /\ ~ In "validation_summary" (map doc_key documents).
Proof.
  apply (proj1 (documents_follow_reply_order
                  Sample.runtime "accident" Sample.accident_reply
                  ltac:(discriminate) eq_refl eq_refl)
               Sample.accident_fields eq_refl).
Defined.

(** X15. The classifier reads nothing but the presence of its ten signature
    keys: two objects that agree on which of those keys they hold are
    classified alike, whatever the values and whatever other keys they have,
    and the answer is always one of the six known labels. *)
Theorem classification_reads_only_signature_keys (doc doc' : dict) :
  In (identify_document_type doc) Observed.document_types
  /\ ((forall key, In key Observed.signature_keys ->
                   has_key key doc = has_key key doc') ->
      identify_document_type doc = identify_document_type doc').
Proof.
  split.
  - unfold identify_document_type, Observed.document_types.
    repeat match goal with
           | |- context [if ?c then _ else _] => destruct c
           end; simpl; auto 10.
  - intros Hsame. unfold identify_document_type.
    rewrite !Hsame by (unfold Observed.signature_keys; simpl; auto 12).
    reflexivity.
Qed.

Lemma classification_reads_only_signature_keys_witness :
  identify_document_type
    [("issuing_company", JNull); ("policy_summary", JInt 7)]
  = identify_document_type
      [("policy_summary", JObj []); ("notes", JStr "x"); ("issuing_company", JObj [])].
Proof.
  apply (proj2 (classification_reads_only_signature_keys
                  [("issuing_company", JNull); ("policy_summary", JInt 7)]
                  [("policy_summary", JObj []); ("notes", JStr "x");
                   ("issuing_company", JObj [])])).
  intros key Hin. simpl in Hin.
  repeat (destruct Hin as [<-|Hin]; [reflexivity|]). contradiction.
Defined.

(** ** More on the intake *)

(** X16. A PDF is taken whole or not at all: if every page renders, its
    pages are appended in page order; if the document does not open, or a
    single page fails to render, nothing of it is appended, not even the
    pages before the failing one, and the images loaded so far are kept. *)
Theorem pdf_is_loaded_whole_or_not_at_all
  (rt : Runtime) (images : list Image) (file_path : string) :
  Expected.kind_of file_path = Expected.pdf ->
  (forall pages,
      pdf_pages rt file_path = Return (map Return pages) ->
      load_path rt images file_path = images ++ pages)
  /\ (forall pages e,
        pdf_pages rt file_path = Return pages ->
        In (Raise e) pages ->
        load_path rt images file_path = images)
  /\ (forall e,
        pdf_pages rt file_path = Raise e ->
        load_path rt images file_path = images
        /\ convert_pdf_to_images rt file_path
           = Raise (Exn OtherException
                        ("Failed to convert PDF to images: " +s+ exn_msg e))).
Proof.
  intros Hkind.
  assert (Hpages : forall pages, Expected.all_pages (map Return pages) = Some pages).
  { induction pages as [|p ps IH]; simpl; [reflexivity | now rewrite IH]. }
  assert (Hbad : forall pages e, In (Raise e) pages ->
                                 Expected.all_pages pages = None).
  { induction pages as [|[img|e'] ps IH]; simpl; intros e Hin.
    - contradiction.
    - destruct Hin as [Hin|Hin]; [discriminate|]. now rewrite (IH e Hin).
    - reflexivity. }
  split; [|split].
  - intros pages Hopen. rewrite load_path_pages.
    unfold Expected.pages_of. now rewrite Hkind, Hopen, Hpages.
  - intros pages e Hopen Hin. rewrite load_path_pages.
    unfold Expected.pages_of. rewrite Hkind, Hopen, (Hbad pages e Hin).
    apply app_nil_r.
  - intros e Hopen. split.
    + rewrite load_path_pages. unfold Expected.pages_of.
      rewrite Hkind, Hopen. apply app_nil_r.
    + unfold convert_pdf_to_images. now rewrite Hopen.
Qed.

Lemma pdf_is_loaded_whole_or_not_at_all_witness :
  load_path Sample2.strict_runtime [Sample.photo "a.png"] "partial.pdf"
  = [Sample.photo "a.png"].
Proof.
  apply (proj1 (proj2 (pdf_is_loaded_whole_or_not_at_all
                         Sample2.strict_runtime [Sample.photo "a.png"]
                         "partial.pdf" eq_refl))
               [Return (Sample.photo "partial.pdf#1");
                Raise (Sample.io_error "page 2 cannot be rendered")]
               (Sample.io_error "page 2 cannot be rendered")).
  - reflexivity.
  - right. left. reflexivity.
Defined.

(** X17. Loose files are loaded independently of one another: the images of
    a list of files are the images of its first part followed by the images
    of the rest, a single file handed over outside a list is treated as a
    one-element list, and a [None] entry contributes nothing. *)
Theorem loose_files_load_independently
  (rt : Runtime) (first rest : list (option UploadedFile)) (f : UploadedFile) :
  process_uploaded_files rt (FileList (first ++ rest))
  = process_uploaded_files rt (FileList first)
    ++ process_uploaded_files rt (FileList rest)
  /\ process_uploaded_files rt (SingleFile f)
     = process_uploaded_files rt (FileList [Some f])
  /\ process_uploaded_files rt (FileList (None :: rest))
     = process_uploaded_files rt (FileList rest).
Proof.
  rewrite !process_uploaded_files_pages.
  split; [|split].
  - rewrite loose_paths_app. apply flat_map_app.
  - simpl. reflexivity.
  - simpl. reflexivity.
Qed.

(** X18. An archive that cannot be extracted costs nothing but itself: the
    submission then yields exactly the images of the loose files, as if no
    archive had been uploaded. *)
Theorem failed_archive_keeps_loose_files
  (rt : Runtime) (files : Upload) (z : UploadedFile) (e : exn) :
  zip_walk rt (name z) = Raise e ->
  gather_images rt files (Some z) = gather_images rt files None
  /\ gather_images rt files (Some z) = process_uploaded_files rt files.
Proof.
  intros Hfail.
  rewrite !gather_images_pages, process_uploaded_files_pages.
  unfold Expected.page_images, Expected.archive_paths. rewrite Hfail.
  simpl. rewrite app_nil_r. split; reflexivity.
Qed.

Lemma failed_archive_keeps_loose_files_witness :
  gather_images Sample.runtime (Sample.upload ["a.png"; "b.pdf"])
                (Some (mkFile "corrupt.zip"))
  = gather_images Sample.runtime (Sample.upload ["a.png"; "b.pdf"]) None.
Proof.
  apply (proj1 (failed_archive_keeps_loose_files
                  Sample.runtime (Sample.upload ["a.png"; "b.pdf"])
                  (mkFile "corrupt.zip")
                  (Sample.io_error "File is not a zip file") eq_refl)).
Defined.

(** ** File names and kinds *)

Lemma string_length_append (a b : string) :
  String.length (a +s+ b) = (String.length a + String.length b)%nat.
Proof. induction a as [|x a IH]; simpl; [reflexivity | now rewrite IH]. Qed.

Lemma occurs_append (c : ascii) (a b : string) :
  Observed.occurs c (a +s+ b) = Observed.occurs c a || Observed.occurs c b.
Proof.
  induction a as [|x a IH]; [reflexivity|].
  cbn [String.append Observed.occurs]. now rewrite IH, orb_assoc.
Qed.

Lemma components_from_plain (s : string) :
  forall cur,
    Observed.occurs "/" s = false -> components_from cur s = [cur +s+ s].
Proof.
  induction s as [|c r IH]; intros cur Hs.
  - simpl. f_equal. induction cur; simpl; congruence.
  - cbn [Observed.occurs] in Hs. apply orb_false_iff in Hs. destruct Hs as [Hc Hr].
    cbn [components_from].
    rewrite Ascii.eqb_sym in Hc. rewrite Hc, (IH _ Hr), append_assoc.
    reflexivity.
Qed.

Lemma path_name_plain (s : string) :
  Observed.occurs "/" s = false -> s <> "" -> s <> "." -> path_name s = s.
Proof.
  intros Hs Hne Hnd. unfold path_name, components.
  rewrite (components_from_plain s "" Hs). cbn [String.append filter].
  apply String.eqb_neq in Hne, Hnd. rewrite Hne, Hnd. reflexivity.
Qed.

Lemma from_last_dot_none (s : string) :
  Observed.occurs "." s = false -> from_last_dot s = None.
Proof.
  induction s as [|c r IH]; [reflexivity|].
  cbn [Observed.occurs from_last_dot]. intros H.
  apply orb_false_iff in H. destruct H as [Hc Hr].
  rewrite (IH Hr). rewrite Ascii.eqb_sym in Hc. now rewrite Hc.
Qed.

Lemma from_last_dot_extension (stem ext : string) :
  Observed.occurs "." ext = false ->
  from_last_dot (stem +s+ "." +s+ ext) = Some ("." +s+ ext).
Proof.
  intros Hext. induction stem as [|c stem IH].
  - simpl. now rewrite (from_last_dot_none ext Hext).
  - cbn [String.append from_last_dot]. cbn [String.append] in IH.
    now rewrite IH.
Qed.

Lemma components_without_dot (s : string) :
  forall cur,
    Observed.occurs "." cur = false ->
    Observed.occurs "." s = false ->
    Forall (fun c => Observed.occurs "." c = false) (components_from cur s).
Proof.
  induction s as [|c r IH]; intros cur Hcur Hs.
  - repeat constructor. exact Hcur.
  - cbn [Observed.occurs] in Hs. apply orb_false_iff in Hs. destruct Hs as [Hc Hr].
    cbn [components_from]. destruct (c =? "/")%char.
    + constructor; [exact Hcur | now apply IH].
    + apply IH; [|exact Hr].
      rewrite occurs_append, Hcur. cbn [Observed.occurs orb]. now rewrite Hc.
Qed.

Lemma last_Forall {A} (P : A -> Prop) (l : list A) (d : A) :
  Forall P l -> P d -> P (last l d).
Proof.
  induction l as [|a l IH]; intros Hl Hd; [exact Hd|].
  inversion Hl; subst. destruct l; [assumption|]. now apply IH.
Qed.

Lemma suffix_of_plain_name (stem ext : string) :
  stem <> "" -> ext <> "" ->
  Observed.occurs "/" stem = false ->
  Observed.occurs "/" ext = false ->
  Observed.occurs "." ext = false ->
  suffix (stem +s+ "." +s+ ext) = "." +s+ ext.
Proof.
  intros Hstem Hext Hslash_stem Hslash_ext Hdot.
  unfold suffix.
  rewrite path_name_plain.
  - rewrite (from_last_dot_extension stem ext Hdot).
    rewrite !string_length_append. cbn [String.length String.append].
    destruct stem as [|c stem]; [congruence|].
    destruct ext as [|x ext]; [congruence|].
    cbn [String.length].
    match goal with
    | |- context [((?a <? ?b)%nat && (?c <? ?d)%nat)%bool] =>
        replace (a <? b)%nat with true
          by (symmetry; apply Nat.ltb_lt; lia);
        replace (c <? d)%nat with true
          by (symmetry; apply Nat.ltb_lt; lia)
    end.
    reflexivity.
  - rewrite !occurs_append, Hslash_stem, Hslash_ext. reflexivity.
  - destruct stem; [congruence | discriminate].
  - destruct stem as [|c [|c' stem]]; [congruence| |discriminate].
    destruct ext; [congruence | discriminate].
Qed.

Lemma suffix_without_dot (path : string) :
  Observed.occurs "." path = false -> suffix path = "".
Proof.
  intros Hdot. unfold suffix.
  rewrite from_last_dot_none; [reflexivity|].
  unfold path_name, components.
  apply last_Forall; [|reflexivity].
  apply Forall_forall. intros c Hin. apply filter_In in Hin.
  pose proof (components_without_dot path "" eq_refl Hdot) as Hall.
  rewrite Forall_forall in Hall. apply Hall. exact (proj1 Hin).
Qed.

(** X19. What the loading loop does with a file is decided by the file's
    last extension alone, without regard to letter case.  For a plain name
    [stem.ext] (no directory part, a non-empty stem, a non-empty extension
    without a dot): if the lower-cased extension is png, jpg, jpeg, bmp or
    tiff the file is opened as an image and, when it opens, appended; if it
    is pdf the file is converted and, when that succeeds, its pages are
    appended; otherwise the file is not touched and the images are returned
    as they were.  A path that contains no dot at all is never opened. *)
Theorem last_extension_decides_loading
  (rt : Runtime) (images : list Image) (stem ext : string) :
  (stem <> "" -> ext <> "" ->
   Observed.occurs "/" stem = false ->
   Observed.occurs "/" ext = false ->
   Observed.occurs "." ext = false ->
   (In (lower ext) ["png"; "jpg"; "jpeg"; "bmp"; "tiff"] ->
    load_path rt images (stem +s+ "." +s+ ext)
    = match image_open rt (stem +s+ "." +s+ ext) with
      | Return img => images ++ [img]
      | Raise _ => images
      end)
   /\ (lower ext = "pdf" ->
       load_path rt images (stem +s+ "." +s+ ext)
       = match convert_pdf_to_images rt (stem +s+ "." +s+ ext) with
         | Return pdf_images => images ++ pdf_images
         | Raise _ => images
         end)
   /\ (~ In (lower ext) ["png"; "jpg"; "jpeg"; "bmp"; "tiff"; "pdf"] ->
       load_path rt images (stem +s+ "." +s+ ext) = images))
  /\ (forall path,
        Observed.occurs "." path = false ->
        load_path rt images path = images
        /\ process_uploaded_files rt (FileList [Some (mkFile path)]) = []).
Proof.
  assert (Hlower : forall e, lower ("." +s+ e) = "." +s+ lower e)
    by reflexivity.
  split.
  - intros Hstem Hext Hslash_stem Hslash_ext Hdot.
    pose proof (suffix_of_plain_name stem ext Hstem Hext Hslash_stem
                                     Hslash_ext Hdot) as Hsuffix.
    split; [|split].
    + intros Hin. unfold load_path. rewrite Hsuffix, Hlower.
      simpl in Hin.
      destruct Hin as [H|[H|[H|[H|[H|[]]]]]]; rewrite <- H; reflexivity.
    + intros Hpdf. unfold load_path. rewrite Hsuffix, Hlower, Hpdf.
      reflexivity.
    + intros Hnot. unfold load_path. rewrite Hsuffix, Hlower.
      assert (Hmem : forall known,
                 (forall k, In k known ->
                            In k ["png"; "jpg"; "jpeg"; "bmp"; "tiff"; "pdf"]) ->
                 mem ("." +s+ lower ext) (map (String.append ".") known)
                 = false).
      { induction known as [|k known IH]; intros Hsub; [reflexivity|].
        cbn [map mem existsb]. fold (mem ("." +s+ lower ext)
                                         (map (String.append ".") known)).
        rewrite IH by (intros k' Hk'; apply Hsub; now right).
        cbn [String.append String.eqb].
        rewrite Ascii.eqb_refl.
        destruct (String.eqb_spec (lower ext) k) as [Heq|]; [|reflexivity].
        exfalso. apply Hnot. rewrite Heq. apply Hsub. now left. }
      change supported_image_formats
        with (map (String.append ".") ["png"; "jpg"; "jpeg"; "bmp"; "tiff"]).
      change supported_document_formats
        with (map (String.append ".") ["pdf"]).
      rewrite !Hmem; [reflexivity| |];
        intros k Hk; simpl in Hk |- *; intuition.
  - intros path Hdot.
    assert (Hload : forall acc, load_path rt acc path = acc).
    { intros acc. unfold load_path.
      now rewrite (suffix_without_dot path Hdot). }
    split; [apply Hload|].
    unfold process_uploaded_files. cbn. apply Hload.
Qed.

Lemma last_extension_decides_loading_witness :
  load_path Sample.runtime [] ("Photo.Front" +s+ "." +s+ "JPEG")
  = [Sample.photo "Photo.Front.JPEG"]
  /\ load_path Sample.runtime [] ("Scan" +s+ "." +s+ "Pdf")
     = [Sample.photo "Scan.Pdf#1"; Sample.photo "Scan.Pdf#2"]
  /\ load_path Sample.runtime [Sample.photo "a.png"] ("notes" +s+ "." +s+ "TXT")
     = [Sample.photo "a.png"]
  /\ load_path Sample.runtime [Sample.photo "a.png"] "README"
     = [Sample.photo "a.png"].
Proof.
  split; [|split; [|split]].
  - apply (proj1 (proj1 (last_extension_decides_loading
                           Sample.runtime [] "Photo.Front" "JPEG")
                        ltac:(discriminate) ltac:(discriminate)
                        eq_refl eq_refl eq_refl)).
    simpl. auto.
  - apply (proj1 (proj2 (proj1 (last_extension_decides_loading
                                  Sample.runtime [] "Scan" "Pdf")
                               ltac:(discriminate) ltac:(discriminate)
                               eq_refl eq_refl eq_refl))).
    reflexivity.
  - apply (proj2 (proj2 (proj1 (last_extension_decides_loading
                                  Sample.runtime [Sample.photo "a.png"]
                                  "notes" "TXT")
                               ltac:(discriminate) ltac:(discriminate)
                               eq_refl eq_refl eq_refl))).
    simpl. intuition discriminate.
  - apply (proj2 (last_extension_decides_loading
                    Sample.runtime [Sample.photo "a.png"] "x" "y")
                 "README").
    reflexivity.
Defined.
